(** * Authentication middleware of Advance-Backend: a shallow embedding

    Sources embedded here:
    - [src/middleware/auth.ts]           (authenticateToken, requireRole,
      authenticateWallet, refreshToken and the combined middleware arrays)
    - [src/middleware/authMiddleware.ts] (authenticate, authenticateWeb3)
    - [src/models/User.ts]               (the Sequelize model and its hooks)

    The handlers are asynchronous functions that talk to Redis, to the
    database and to library code that reads the clock or draws random
    bytes.  They are embedded as finite programs over a signature of
    operations ([Op]); a handler for the operations interprets a program
    on a [World], and the sequence of operations a run performs is its
    trace.  Concurrent requests are interleavings of such programs, one
    operation at a time (every operation is an [await]ed call or a
    synchronous library call). *)

From Stdlib Require Import String Ascii List ZArith Bool Lia.
From stdpp Require Import base option list gmap strings.

Local Open Scope string_scope.
Local Open Scope Z_scope.

(** ** JavaScript strings *)

Module Js.

(** [s.split(sep)] for a one-character separator: never the empty list. *)
Fixpoint split (sep : ascii) (s : string) : list string :=
  match s with
  | EmptyString => [EmptyString]
  | String c rest =>
      if Ascii.eqb c sep then EmptyString :: split sep rest
      else match split sep rest with
           | [] => [String c EmptyString]
           | w :: ws => String c w :: ws
           end
  end.

(** [arr[i]]: [undefined] out of range. *)
Definition index {A} (l : list A) (i : nat) : option A := nth_error l i.

(** [s.startsWith(p)] *)
Definition startsWith (p s : string) : bool := String.prefix p s.

Definition lower_ascii (c : ascii) : ascii :=
  let n := nat_of_ascii c in
  if ((65 <=? n) && (n <=? 90))%nat then ascii_of_nat (n + 32) else c.

(** [s.toLowerCase()], on the ASCII range (addresses are hexadecimal). *)
Fixpoint toLowerCase (s : string) : string :=
  match s with
  | EmptyString => EmptyString
  | String c rest => String (lower_ascii c) (toLowerCase rest)
  end.

(** [s.slice(0, n)] *)
Definition slice_to (n : nat) (s : string) : string := String.substring 0 n s.

(** [s.slice(-n)] *)
Definition slice_last (n : nat) (s : string) : string :=
  String.substring (String.length s - n) n s.

(** Truthiness of a [string | undefined] value: [!!v]. *)
Definition truthy (v : option string) : bool :=
  match v with
  | None => false
  | Some EmptyString => false
  | Some _ => true
  end.

Definition is_hex (c : ascii) : bool :=
  let n := nat_of_ascii c in
  (((48 <=? n) && (n <=? 57)) || ((65 <=? n) && (n <=? 70))
   || ((97 <=? n) && (n <=? 102)))%nat.

Fixpoint all_chars (p : ascii -> bool) (s : string) : bool :=
  match s with
  | EmptyString => true
  | String c rest => p c && all_chars p rest
  end.

End Js.

(** ** Data model *)

(** Modelled from the spec: the declaration of [UserRole] ([src/types]) is
    not among the sources; only [UserRole.WEB3_USER] is named by them.  The
    spec lists "standard user, wallet user, admin". *)
Inductive UserRole := USER | WEB3_USER | ADMIN.

#[global] Instance UserRole_eq_dec : EqDecision UserRole.
Proof. solve_decision. Defined.

(** The signed claims ([TokenPayload]).  The handlers read [userId], [role]
    and [walletAddress]; [tokenId] is the identifier the spec gives each
    token and is absent from tokens signed by [authenticateWeb3]. *)
Record TokenPayload := mkPayload {
  userId : string;
  role : UserRole;
  walletAddress : option string;
  tokenId : option string
}.

(** A row of table [users] (User.ts, [User.init]). *)
Record User := mkUser {
  id : string;
  email : string;
  password : string;
  user_role : UserRole;
  user_walletAddress : option string;
  isActive : bool;
  isWalletVerified : bool
}.

Record ApiError := mkApiError { statusCode : Z; message : string }.

(** The kinds of failure of [jwt.verify]; all are (subclasses of)
    [jwt.JsonWebTokenError]. *)
Inductive JwtFailure := Malformed | SignatureInvalid | Expired.

(** Thrown values, by the classes the [catch] blocks tell apart. *)
Inductive Exn :=
| EApi (e : ApiError)              (* ApiError *)
| EJsonWebToken (f : JwtFailure)   (* jwt.JsonWebTokenError *)
| EJWT (msg : string)              (* JWTError of utils/errors *)
| EError (msg : string).           (* any other Error *)

(** Attributes handed to [User.create]. *)
Record CreateUserAttributes := mkAttrs {
  a_email : string;
  a_password : string;
  a_role : option UserRole;
  a_walletAddress : option string;
  a_isActive : option bool;
  a_isWalletVerified : option bool
}.

(** Library code outside the repository, as an interface. *)
Class Externals := {
  (** [ethers.verifyMessage(message, signature)]: the recovered address,
      [None] when it throws. *)
  verifyMessage : string -> string -> option string;
  (** [jwt.verify(token, secret)] at a given time. *)
  jwt_verify : Z -> string -> option string -> JwtFailure + TokenPayload;
  (** [jwt.sign(payload, secret, {expiresIn})] at a given time; [None] when
      it throws. *)
  jwt_sign : Z -> TokenPayload -> option string -> Z -> option string;
  (** [bcrypt.hash(data, salt)] *)
  bcrypt_hash : string -> string -> string;
  (** [bcrypt.compare(data, hash)] *)
  bcrypt_compare : string -> string -> bool;
  (** validator's [isEmail] *)
  isEmail : string -> bool;
  (** the n-th draw of the random sources *)
  random_hex : nat -> nat -> string;
  random_salt : nat -> Z -> string;
  random_uuid : nat -> string
}.

(** ** Operations and programs *)

Inductive InsertConflict := DuplicateId | DuplicateEmail | DuplicateWallet.

Inductive Op : Type -> Type :=
| RedisGet (key : string) : Op (option string)
| FindByPk (pk : string) : Op (option User)
| FindOneByWallet (addr : option string) : Op (option User)
| Insert (u : User) : Op (InsertConflict + User)
| Update (u : User) (fields : gset string) : Op (InsertConflict + User)
| JwtVerify (token : string) (secret : option string) : Op (JwtFailure + TokenPayload)
| JwtSign (p : TokenPayload) (secret : option string) (ttl : Z) : Op (option string)
| RandomHex (bytes : nat) : Op string
| GenSalt (rounds : Z) : Op string
| UuidV4 : Op string
| ConsoleError (label : string) (e : Exn) : Op unit.

Inductive Prog (A : Type) : Type :=
| Ret (a : A)
| Throw (e : Exn)
| Vis {X : Type} (op : Op X) (k : X -> Prog A).

Arguments Ret {A} a.
Arguments Throw {A} e.
Arguments Vis {A X} op k.

Fixpoint bind {A B} (p : Prog A) (f : A -> Prog B) : Prog B :=
  match p with
  | Ret a => f a
  | Throw e => Throw e
  | Vis op k => Vis op (fun x => bind (k x) f)
  end.

(** [try { p } catch (e) { h e }] *)
Fixpoint catch {A} (p : Prog A) (h : Exn -> Prog A) : Prog A :=
  match p with
  | Ret a => Ret a
  | Throw e => h e
  | Vis op k => Vis op (fun x => catch (k x) h)
  end.

Definition call {X} (op : Op X) : Prog X := Vis op Ret.

#[global] Instance Prog_ret : MRet Prog := @Ret.
#[global] Instance Prog_bind : MBind Prog := fun A B f p => bind p f.

(** [if (c) throw e] *)
Definition throw_if (c : bool) (e : Exn) : Prog unit :=
  if c then Throw e else Ret tt.

(** ** The world the operations act on *)

Record World := mkWorld {
  users : list User;               (* table [users] *)
  redis : gmap string string;      (* the Redis key space *)
  now : Z;                         (* the clock *)
  draws : nat                      (* random draws made so far *)
}.

Definition with_users (w : World) (us : list User) : World :=
  mkWorld us (redis w) (now w) (draws w).

Definition tick (w : World) : World :=
  mkWorld (users w) (redis w) (now w) (S (draws w)).

(** The row written by an [UPDATE] of the attributes in [fields]. *)
Definition merge (fields : gset string) (new old : User) : User :=
  let pick {A} (key : string) (f : User -> A) : A :=
    if bool_decide (key ∈ fields) then f new else f old in
  mkUser (id old)
         (pick "email" email)
         (pick "password" password)
         (pick "role" user_role)
         (pick "walletAddress" user_walletAddress)
         (pick "isActive" isActive)
         (pick "isWalletVerified" isWalletVerified).

Module Table.

Definition findByPk (pk : string) (us : list User) : option User :=
  find (fun v => bool_decide (id v = pk)) us.

(** [findOne({ where: { walletAddress } })] *)
Definition findOneByWallet (addr : option string) (us : list User) : option User :=
  match addr with
  | None => None
  | Some a => find (fun v => bool_decide (user_walletAddress v = Some a)) us
  end.

Definition id_taken (u : User) (us : list User) : bool :=
  existsb (fun v => bool_decide (id v = id u)) us.

(** [unique: true] on [email] *)
Definition email_taken (u : User) (us : list User) : bool :=
  existsb (fun v => bool_decide (email v = email u)) us.

(** [unique: true] on [walletAddress], a nullable column: rows without
    an address never conflict. *)
Definition wallet_taken (u : User) (us : list User) : bool :=
  match user_walletAddress u with
  | None => false
  | Some a => existsb (fun v => bool_decide (user_walletAddress v = Some a)) us
  end.

Definition insert (u : User) (us : list User) : InsertConflict + list User :=
  if id_taken u us then inl DuplicateId
  else if email_taken u us then inl DuplicateEmail
  else if wallet_taken u us then inl DuplicateWallet
  else inr (us ++ [u])%list.

Definition others (u : User) (us : list User) : list User :=
  filter (fun v => id v ≠ id u) us.

(** [UPDATE ... SET <fields> WHERE id = u.id] under the same unique
    indexes; [merge] builds the row that results. *)
Definition update (merge : User -> User -> User) (u : User) (us : list User)
  : InsertConflict + list User :=
  match findByPk (id u) us with
  | None => inr us
  | Some old =>
      let row := merge u old in
      if email_taken row (others u us) then inl DuplicateEmail
      else if wallet_taken row (others u us) then inl DuplicateWallet
      else inr (map (fun v => if bool_decide (id v = id u) then row else v) us)
  end.

End Table.

Section Semantics.
Context `{Externals}.

(** What each operation answers when it returns.  A call that throws
    instead (Redis or the database being unreachable) is not an answer of
    this handler: the runs described below are those in which every
    awaited call returns; in the others the [catch] blocks of the handlers
    report a 500. *)
Definition handle {X} (op : Op X) (w : World) : X * World :=
  match op in Op X return X * World with
  | RedisGet key => (redis w !! key, w)
  | FindByPk pk => (Table.findByPk pk (users w), w)
  | FindOneByWallet addr => (Table.findOneByWallet addr (users w), w)
  | Insert u =>
      match Table.insert u (users w) with
      | inl c => (inl c, w)
      | inr us => (inr u, with_users w us)
      end
  | Update u fields =>
      match Table.update (merge fields) u (users w) with
      | inl c => (inl c, w)
      | inr us => (inr u, with_users w us)
      end
  | JwtVerify token secret => (jwt_verify (now w) token secret, w)
  | JwtSign p secret ttl => (jwt_sign (now w) p secret ttl, w)
  | RandomHex bytes => (random_hex (draws w) bytes, tick w)
  | GenSalt rounds => (random_salt (draws w) rounds, tick w)
  | UuidV4 => (random_uuid (draws w), tick w)
  | ConsoleError _ _ => (tt, w)
  end.

Inductive Event : Type := Ev (X : Type) (op : Op X) (x : X).

(** A whole request, run without interference from other requests. *)
Fixpoint run {A} (p : Prog A) (w : World) : (Exn + A) * World * list Event :=
  match p with
  | Ret a => (inr a, w, [])
  | Throw e => (inl e, w, [])
  | Vis op k =>
      let '(x, w1) := handle op w in
      let '(r, w2, t) := run (k x) w1 in
      (r, w2, Ev _ op x :: t)
  end.

Definition result {A} (p : Prog A) (w : World) : Exn + A := (run p w).1.1.
Definition final {A} (p : Prog A) (w : World) : World := (run p w).1.2.
Definition trace {A} (p : Prog A) (w : World) : list Event := (run p w).2.

(** One step of one request: its next operation, if it has one left. *)
Definition step {A} (p : Prog A) (w : World) : Prog A * World :=
  match p with
  | Vis op k => let '(x, w1) := handle op w in (k x, w1)
  | _ => (p, w)
  end.

(** Requests in flight, advanced one operation at a time in the order a
    schedule names them (a position out of range advances nothing). *)
Fixpoint interleave {A} (schedule : list nat) (ps : list (Prog A)) (w : World)
  : list (Prog A) * World :=
  match schedule with
  | [] => (ps, w)
  | i :: rest =>
      match ps !! i with
      | None => interleave rest ps w
      | Some p =>
          let '(p1, w1) := step p w in
          interleave rest (<[i := p1]> ps) w1
      end
  end.

End Semantics.

Arguments Ev {X} op x.

(** ** models/User.ts *)

(** A model instance: its values and the attributes changed since it was
    loaded or last saved (Sequelize's dirty tracking, read by
    [this.changed(key)]). *)
Record UserInstance := mkInstance {
  dataValues : User;
  changed_keys : gset string
}.

Definition with_password (u : User) (v : string) : User :=
  mkUser (id u) (email u) v (user_role u) (user_walletAddress u)
         (isActive u) (isWalletVerified u).

Module Columns.

Definition option_key {A} (key : string) (v : option A) : gset string :=
  match v with Some _ => {[ key ]} | None => ∅ end.

(** The attributes given to [build] are the changed ones of a new
    instance; defaults are not. *)
Definition given (a : CreateUserAttributes) : gset string :=
  {[ "email" ; "password" ]}
    ∪ option_key "role" (a_role a)
    ∪ option_key "walletAddress" (a_walletAddress a)
    ∪ option_key "isActive" (a_isActive a)
    ∪ option_key "isWalletVerified" (a_isWalletVerified a).

End Columns.

Section Model.
Context `{Externals}.

(** [this.changed(key)] *)
Definition changed (u : UserInstance) (key : string) : bool :=
  bool_decide (key ∈ changed_keys u).

(** [this.password = v]: an attribute is marked changed when the value
    set differs from the one held. *)
Definition set_password (u : UserInstance) (v : string) : UserInstance :=
  if bool_decide (password (dataValues u) = v) then u
  else mkInstance (with_password (dataValues u) v)
                  ({[ "password" ]} ∪ changed_keys u).

(** An instance as a query returns it: nothing changed. *)
Definition loaded (u : User) : UserInstance := mkInstance u ∅.

Definition validatePassword (u : UserInstance) (plain : string) : bool :=
  bcrypt_compare plain (password (dataValues u)).

Definition hashPassword (u : UserInstance) : Prog UserInstance :=
  if changed u "password" then
    salt ← call (GenSalt 10);
    mret (set_password u (bcrypt_hash (password (dataValues u)) salt))
  else mret u.

(** [hooks.beforeSave] *)
Definition beforeSave (user : UserInstance) : Prog UserInstance :=
  hashPassword user.

(** [validate: { is: /^0x[a-fA-F0-9]{40}$/ }] *)
Definition is_wallet_address (s : string) : bool :=
  match s with
  | String "0" (String "x" rest) =>
      (String.length rest =? 40)%nat && Js.all_chars Js.is_hex rest
  | _ => false
  end.

(** The validators of [User.init]. *)
Definition validate (u : User) : bool :=
  isEmail (email u)
  && match user_walletAddress u with
     | None => true
     | Some a => is_wallet_address a
     end.

(** [User.build(attrs)], with the [defaultValue]s of [User.init]. *)
Definition build (uuid : string) (a : CreateUserAttributes) : UserInstance :=
  mkInstance
    (mkUser uuid (a_email a) (a_password a)
            (default WEB3_USER (a_role a))
            (a_walletAddress a)
            (default true (a_isActive a))
            (default false (a_isWalletVerified a)))
    (Columns.given a).

(** [error.message] of Sequelize's [ValidationError]: one item for each
    validator that failed, joined by a comma and a line feed. *)
Definition validation_items (u : User) : list string :=
  ((if isEmail (email u) then []
    else ["Validation error: Validation isEmail on email failed"])
   ++ match user_walletAddress u with
      | None => []
      | Some a =>
          if is_wallet_address a then []
          else ["Validation error: Validation is on walletAddress failed"]
      end)%list.

Definition validation_message (u : User) : string :=
  String.concat ("," +:+ String "010"%char "") (validation_items u).

(** [error.message] of Sequelize's [UniqueConstraintError], whichever
    index is violated. *)
Definition conflict_message (c : InsertConflict) : string := "Validation error".

(** [User.create(attrs)]: build, validate, run the hook, insert. *)
Definition User_create (a : CreateUserAttributes) : Prog User :=
  uuid ← call UuidV4;
  let inst := build uuid a in
  throw_if (negb (validate (dataValues inst)))
         (EError (validation_message (dataValues inst)));;
  inst1 ← beforeSave inst;
  r ← call (Insert (dataValues inst1));
  match r with
  | inl c => Throw (EError (conflict_message c))
  | inr u => mret u
  end.

(** [user.save()] on a persisted instance: validate, run the hook, write
    the changed attributes. *)
Definition save (inst : UserInstance) : Prog UserInstance :=
  throw_if (negb (validate (dataValues inst)))
         (EError (validation_message (dataValues inst)));;
  inst1 ← beforeSave inst;
  if bool_decide (changed_keys inst1 = ∅) then mret inst1
  else
    r ← call (Update (dataValues inst1) (changed_keys inst1));
    match r with
    | inl c => Throw (EError (conflict_message c))
    | inr u => mret (loaded u)
    end.

End Model.

(** ** Requests and replies *)

Record Body := mkBody {
  b_walletAddress : option string;
  b_address : option string;
  b_signature : option string;
  b_message : option string;
  b_refreshToken : option string
}.

Record Request := mkRequest {
  authorization : option string;   (* req.headers.authorization *)
  body : Body;                     (* req.body *)
  req_user : option TokenPayload   (* req.user *)
}.

Definition set_user (req : Request) (p : TokenPayload) : Request :=
  mkRequest (authorization req) (body req) (Some p).

Record TokenPair := mkTokens { accessToken : string; refreshToken_of : string }.

Inductive Json :=
| JMessage (m : string)
| JTokens (t : TokenPair)
| JWalletLogin (uid : string) (r : UserRole) (wallet : option string)
               (verified : bool) (t : TokenPair)
| JWeb3Login (token : string) (uid : string) (r : UserRole) (wallet : option string).

(** What a middleware does with a request. *)
Inductive Reply :=
| Next (req : Request)                          (* next() *)
| Failed (e : Exn)                              (* next(err), or a throw Express forwards *)
| Rejected (e : Exn)                            (* the promise of an async middleware rejects *)
| Sent (status : Z) (j : Json)                  (* res.status(s).json(j) *)
| SentNext (status : Z) (j : Json) (req : Request).  (* res.json(j); next() *)

Definition status_of (r : Reply) : option Z :=
  match r with
  | Next _ => None
  | Failed (EApi e) | Rejected (EApi e) => Some (statusCode e)
  | Failed _ | Rejected _ => None
  | Sent s _ => Some s
  | SentNext s _ _ => Some s
  end.

Definition exn_message (e : Exn) : string :=
  match e with
  | EApi a => message a
  | EJsonWebToken Malformed => "jwt malformed"
  | EJsonWebToken SignatureInvalid => "invalid signature"
  | EJsonWebToken Expired => "jwt expired"
  | EJWT m => m
  | EError m => m
  end.

Definition api (status : Z) (msg : string) : Exn := EApi (mkApiError status msg).

(** Process configuration: [process.env.JWT_SECRET] and the token
    lifetimes. *)
Record Config := mkConfig {
  env_JWT_SECRET : option string;
  accessTtl : Z;
  refreshTtl : Z
}.

(** A member of a middleware array. *)
Inductive Middleware :=
| Sync (f : Request -> Prog Reply)
| Async (f : Request -> Prog Reply).

(** Express runs the members in order; a synchronous throw is forwarded to
    the error handler, a reply other than [next()] ends the chain. *)
Fixpoint runChain (ms : list Middleware) (req : Request) : Prog Reply :=
  match ms with
  | [] => mret (Next req)
  | m :: rest =>
      r ← match m with
          | Sync f =>
              catch (f req) (fun e => mret (Failed e))
          | Async f => catch (f req) (fun e => mret (Rejected e))
          end;
      match r with
      | Next req1 => runChain rest req1
      | other => mret other
      end
  end.

(** ** utils/jwt *)

Module JwtUtils.
Section JwtUtils.
Variable cfg : Config.

(** Modelled from the spec: [generateTokenPair] ([src/utils/jwt]) is not
    among the sources.  Section 4.2, [issue]: both tokens are signed
    tokens carrying the payload, each with a fresh [tokenId], signed
    with the process-wide secret; an absent secret fails loudly. *)
Definition generateTokenPair (p : TokenPayload) : Prog TokenPair :=
  match env_JWT_SECRET cfg with
  | None => Throw (EError "ConfigurationError")
  | Some secret =>
      jti1 ← call UuidV4;
      jti2 ← call UuidV4;
      a ← call (JwtSign (mkPayload (userId p) (role p) (walletAddress p) (Some jti1))
                        (Some secret) (accessTtl cfg));
      r ← call (JwtSign (mkPayload (userId p) (role p) (walletAddress p) (Some jti2))
                        (Some secret) (refreshTtl cfg));
      match a, r with
      | Some a, Some r => mret (mkTokens a r)
      | _, _ => Throw (EError "secretOrPrivateKey must have a value")
      end
  end.

Definition jwt_failure_message (f : JwtFailure) : string :=
  match f with
  | Malformed => "Malformed"
  | SignatureInvalid => "SignatureInvalid"
  | Expired => "Expired"
  end.

(** Modelled from the spec: [verifyRefreshToken] ([src/utils/jwt]) is not
    among the sources.  Section 4.3, [validate]: the structural and
    signature check, then expiry, then the revocation-store lookup of the
    token's [tokenId]; section 5: the validator only reads the store. *)
Definition verifyRefreshToken (token : string) : Prog TokenPayload :=
  match env_JWT_SECRET cfg with
  | None => Throw (EError "ConfigurationError")
  | Some secret =>
      v ← call (JwtVerify token (Some secret));
      match v with
      | inl f => Throw (EJWT (jwt_failure_message f))
      | inr p =>
          match tokenId p with
          | None => mret p
          | Some jti =>
              marked ← call (RedisGet jti);
              if Js.truthy marked then Throw (EJWT "Revoked") else mret p
          end
      end
  end.

End JwtUtils.
End JwtUtils.

(** ** middleware/auth.ts *)

Module Auth.
Section Auth.
Context `{Externals}.
Variable cfg : Config.

(** [const JWT_SECRET = process.env.JWT_SECRET || 'your-secret-key'] *)
Definition JWT_SECRET : string :=
  if Js.truthy (env_JWT_SECRET cfg) then default "" (env_JWT_SECRET cfg)
  else "your-secret-key".

(** The tail of the [catch] blocks: [ApiError] is passed on, any other
    [Error] becomes a 500 with its message. *)
Definition forward (error : Exn) : Prog Reply :=
  match error with
  | EApi e => mret (Failed (EApi e))
  | other => mret (Failed (api 500 (exn_message other)))
  end.

(** [authHeader?.split(' ')[1]] *)
Definition bearer (authHeader : option string) : option string :=
  authHeader ≫= (fun h => Js.index (Js.split " " h) 1).

Definition authenticateToken (req : Request) : Prog Reply :=
  catch
    (let authHeader := authorization req in
     let token := bearer authHeader in
     throw_if (negb (Js.truthy token)) (api 401 "No token provided");;
     let token := default "" token in
     isBlacklisted ← call (RedisGet ("bl_" +:+ token));
     throw_if (Js.truthy isBlacklisted) (api 401 "Token has been revoked");;
     v ← call (JwtVerify token (Some JWT_SECRET));
     match v with
     | inl f => Throw (EJsonWebToken f)
     | inr decoded =>
         user ← call (FindByPk (userId decoded));
         match user with
         | None => Throw (api 401 "User not found")
         | Some user =>
             throw_if (negb (isActive user)) (api 401 "User account is inactive");;
             mret (Next (set_user req decoded))
         end
     end)
    (fun error =>
       match error with
       | EJsonWebToken _ => mret (Failed (api 401 "Invalid token"))
       | other => forward other
       end).

(** [req.user] of an [AuthenticatedRequest]; reading a field of
    [undefined] is a [TypeError]. *)
Definition the_user (req : Request) : Prog TokenPayload :=
  match req_user req with
  | Some p => mret p
  | None => Throw (EError "Cannot read properties of undefined")
  end.

Definition requireRole (roles : list UserRole) : Middleware :=
  Sync (fun req =>
    user ← the_user req;
    throw_if (negb (bool_decide (role user ∈ roles)))
             (api 403 "Insufficient permissions");;
    mret (Next req)).

Definition authenticateWallet (req : Request) : Prog Reply :=
  catch
    (let walletAddress := b_walletAddress (body req) in
     let signature := b_signature (body req) in
     let message := b_message (body req) in
     throw_if (negb (Js.truthy walletAddress) || negb (Js.truthy signature)
               || negb (Js.truthy message))
              (api 400 "Missing wallet authentication data");;
     let walletAddress := default "" walletAddress in
     let signature := default "" signature in
     let message := default "" message in
     match verifyMessage message signature with
     | None => Throw (EError "invalid signature")
     | Some recoveredAddress =>
         throw_if (negb (bool_decide (Js.toLowerCase recoveredAddress
                                      = Js.toLowerCase walletAddress)))
                  (api 401 "Invalid signature");;
         found ← call (FindOneByWallet (Some walletAddress));
         user ← match found with
                | Some user => mret user
                | None =>
                    randomBytes ← call (RandomHex 32);
                    User_create
                      (mkAttrs (walletAddress +:+ "@web3.user")
                               ("0x" +:+ randomBytes)
                               (Some WEB3_USER)
                               (Some walletAddress)
                               (Some true)
                               (Some true))
                end;
         tokens ← JwtUtils.generateTokenPair cfg
                    (mkPayload (id user) (user_role user) (user_walletAddress user) None);
         mret (Sent 200 (JWalletLogin (id user) (user_role user)
                           (user_walletAddress user) (isWalletVerified user) tokens))
     end)
    forward.

Definition refreshToken (req : Request) : Prog Reply :=
  catch
    (let refreshToken := b_refreshToken (body req) in
     throw_if (negb (Js.truthy refreshToken)) (api 400 "Refresh token is required");;
     payload ← JwtUtils.verifyRefreshToken cfg (default "" refreshToken);
     user ← call (FindByPk (userId payload));
     match user with
     | None => Throw (api 401 "User not found")
     | Some user =>
         throw_if (negb (isActive user)) (api 401 "User account is inactive");;
         tokens ← JwtUtils.generateTokenPair cfg
                    (mkPayload (id user) (user_role user) (user_walletAddress user) None);
         mret (Sent 200 (JTokens tokens))
     end)
    (fun error =>
       match error with
       | EJWT m => mret (Failed (api 401 m))
       | other => forward other
       end).

Definition requireAuth : list Middleware := [Async authenticateToken].

Definition requireWeb3Auth : list Middleware :=
  [ Async authenticateToken;
    Sync (fun req =>
      user ← the_user req;
      throw_if (negb (Js.truthy (walletAddress user)))
               (api 401 "Web3 authentication required");;
      mret (Next req)) ].

Definition requireWallet : list Middleware :=
  [ Async authenticateToken;
    Sync (fun req =>
      user ← the_user req;
      throw_if (negb (Js.truthy (walletAddress user)))
               (api 401 "Wallet authentication required");;
      mret (Next req)) ].

Definition requireVerifiedWallet : list Middleware :=
  [ Async authenticateToken;
    Async (fun req =>
      tp ← the_user req;
      throw_if (negb (Js.truthy (walletAddress tp)))
               (api 401 "Wallet authentication required");;
      user ← call (FindOneByWallet (walletAddress tp));
      throw_if (negb (from_option isWalletVerified false user))
               (api 403 "Wallet not verified");;
      mret (Next req)) ].

End Auth.
End Auth.

(** ** middleware/authMiddleware.ts *)

Module AuthMiddleware.
Section AuthMiddleware.
Context `{Externals}.
Variable cfg : Config.

Definition payload_of (user : User) : TokenPayload :=
  mkPayload (id user) (user_role user) (user_walletAddress user) None.

Definition authenticate (req : Request) : Prog Reply :=
  catch
    (let authHeader := authorization req in
     if negb (from_option (Js.startsWith "Bearer ") false authHeader)
     then mret (Sent 401 (JMessage "No token provided"))
     else
       let token := default "" (Auth.bearer authHeader) in
       (* process.env.JWT_SECRET! : the value as configured, absent or not *)
       v ← call (JwtVerify token (env_JWT_SECRET cfg));
       match v with
       | inl f => Throw (EJsonWebToken f)
       | inr decoded =>
           user ← call (FindByPk (userId decoded));
           match user with
           | None => mret (Sent 401 (JMessage "User not found"))
           | Some user =>
               if negb (isActive user)
               then mret (Sent 403 (JMessage "Account is deactivated"))
               else mret (Next (set_user req (payload_of user)))
           end
       end)
    (fun error =>
       match error with
       | EJsonWebToken _ => mret (Sent 401 (JMessage "Invalid token"))
       | other =>
           call (ConsoleError "Auth middleware error:" other);;
           mret (Sent 500 (JMessage "Internal server error"))
       end).

Definition authenticateWeb3 (req : Request) : Prog Reply :=
  catch
    (let signature := b_signature (body req) in
     let message := b_message (body req) in
     let address := b_address (body req) in
     if negb (Js.truthy signature) || negb (Js.truthy message)
        || negb (Js.truthy address)
     then mret (Sent 400 (JMessage "Missing required fields"))
     else
       let signature := default "" signature in
       let message := default "" message in
       let address := default "" address in
       match verifyMessage message signature with
       | None => Throw (EError "invalid signature")
       | Some recoveredAddress =>
           if negb (bool_decide (Js.toLowerCase recoveredAddress
                                 = Js.toLowerCase address))
           then mret (Sent 401 (JMessage "Invalid signature"))
           else
             found ← call (FindOneByWallet (Some address));
             user ← match found with
                    | Some user => mret user
                    | None =>
                        randomBytes ← call (RandomHex 32);
                        User_create
                          (mkAttrs (Js.slice_to 6 address +:+ "..."
                                    +:+ Js.slice_last 4 address +:+ "@web3.user")
                                   randomBytes
                                   (Some WEB3_USER)
                                   (Some address)
                                   (Some true)
                                   None)
                    end;
             if negb (isActive user)
             then mret (Sent 403 (JMessage "Account is deactivated"))
             else
               signed ← call (JwtSign (payload_of user) (env_JWT_SECRET cfg) 604800);
               match signed with
               | None => Throw (EError "secretOrPrivateKey must have a value")
               | Some token =>
                   mret (SentNext 200
                           (JWeb3Login token (id user) (user_role user)
                                       (user_walletAddress user))
                           (set_user req (payload_of user)))
               end
       end)
    (fun error =>
       call (ConsoleError "Web3 auth middleware error:" error);;
       mret (Sent 500 (JMessage "Internal server error"))).

End AuthMiddleware.
End AuthMiddleware.

(** ** Properties of programs and directories *)

(** No two rows hold the same wallet address. *)
Definition wallet_unique (us : list User) : Prop :=
  forall i j u v a,
    us !! i = Some u -> us !! j = Some v ->
    user_walletAddress u = Some a -> user_walletAddress v = Some a -> i = j.

(** No two rows have the same primary key. *)
Definition id_unique (us : list User) : Prop :=
  forall i j u v,
    us !! i = Some u -> us !! j = Some v -> id u = id v -> i = j.

(** The unique indexes of table [users] that the logins rely on. *)
Definition directory_ok (us : list User) : Prop :=
  id_unique us /\ wallet_unique us.

(** The rows holding wallet address [a]. *)
Definition accounts_of (a : string) (us : list User) : list User :=
  List.filter (fun v => bool_decide (user_walletAddress v = Some a)) us.

(** A program that has nothing left to do but report a 500: it returns it,
    possibly after logging. *)
Definition ends_with_500 (p : Prog Reply) : Prop :=
  (exists m, p = Ret (Failed (api 500 m)))
  \/ (exists l e, p = Vis (ConsoleError l e)
                       (fun _ => Ret (Sent 500 (JMessage "Internal server error")))).

(** Every way a program can end, whatever its operations answer: a thrown
    value satisfies [onThrow], a returned one [onRet]. *)
Fixpoint ends {A} (onThrow : Exn -> Prop) (onRet : A -> Prop) (p : Prog A) : Prop :=
  match p with
  | Ret a => onRet a
  | Throw e => onThrow e
  | Vis op k => forall x, ends onThrow onRet (k x)
  end.

(** A thrown value that is a plain [Error]. *)
Definition plain_error (e : Exn) : Prop := exists m, e = EError m.

(** At every [Insert] a program can reach, whatever the operations before
    it answered, a conflict leaves nothing but the report of a 500. *)
Fixpoint conflicts_surface (p : Prog Reply) : Prop :=
  match p with
  | Vis op k =>
      (forall x, conflicts_surface (k x))
      /\ match op in Op X return (X -> Prog Reply) -> Prop with
         | Insert _ => fun k => forall c, ends_with_500 (k (inl c))
         | _ => fun _ => True
         end k
  | _ => True
  end.

(** Two rows that differ at most in role and wallet address. *)
Definition same_but_role_wallet (u v : User) : Prop :=
  id u = id v /\ email u = email v /\ password u = password v
  /\ isActive u = isActive v /\ isWalletVerified u = isWalletVerified v.

(** Two worlds whose directories differ at most in the roles and wallet
    addresses of their accounts. *)
Definition same_but_roles_wallets (w1 w2 : World) : Prop :=
  Forall2 same_but_role_wallet (users w1) (users w2)
  /\ redis w1 = redis w2 /\ now w1 = now w2 /\ draws w1 = draws w2.

(** ** A concrete instance of the library interface

    Stand-ins for the libraries, used to run the handlers on concrete
    requests: a table of issued tokens, a table of signatures. *)

Module Fixture.

Definition hex_digit (n : nat) : ascii :=
  nth (n mod 16) (list_ascii_of_string "0123456789abcdef") "0"%char.

Definition hex2 (n : nat) : string :=
  String (hex_digit (n / 16)) (String (hex_digit n) EmptyString).

Definition wallet : string := "0x52908400098527886E0F7030069857D2E4169EE7".
Definition wallet_lower : string := "0x52908400098527886e0f7030069857d2e4169ee7".
Definition wallet2 : string := "0x5290aaaaaaaaaaaaaaaaaaaaaaaaaaaaaaaa9ee7".
Definition wallet3 : string := "0x5290bbbbbbbbbbbbbbbbbbbbbbbbbbbbbbbb9ee7".

Definition alice : User :=
  mkUser "u-alice" "alice@example.com" "$2b$10$salt00$wonderland" USER None true false.
Definition bob : User :=
  mkUser "u-bob" "bob@example.com" "$2b$10$salt01$builder" USER None false false.
Definition root : User :=
  mkUser "u-root" "root@example.com" "$2b$10$salt02$toor" ADMIN None true false.
Definition carol : User :=
  mkUser "u-carol" "carol@example.com" "$2b$10$salt03$0xfeed" WEB3_USER
         (Some "0x8617E340B3D01FA5F11F306F4090FD50E238070D") true true.

(** Issued tokens: payload, signing key, expiry. *)
Definition issued : list (string * (TokenPayload * string * Z)) :=
  [ ("alice.access", (mkPayload "u-alice" USER None (Some "jti-1"), "s3cr3t", 2000));
    ("alice.refresh", (mkPayload "u-alice" USER None (Some "jti-2"), "s3cr3t", 9000));
    ("bob.access", (mkPayload "u-bob" USER None (Some "jti-3"), "s3cr3t", 2000));
    ("root.default", (mkPayload "u-root" ADMIN None (Some "jti-4"), "your-secret-key", 2000));
    ("carol.access", (mkPayload "u-carol" WEB3_USER
                                (Some "0x8617E340B3D01FA5F11F306F4090FD50E238070D")
                                (Some "jti-5"), "s3cr3t", 2000)) ].

Definition lookup_token (token : string) : option (TokenPayload * string * Z) :=
  snd <$> find (fun e => bool_decide (fst e = token)) issued.

Definition verify (t : Z) (token : string) (secret : option string)
  : JwtFailure + TokenPayload :=
  match lookup_token token with
  | None => inl Malformed
  | Some (p, key, exp) =>
      if negb (bool_decide (secret = Some key)) then inl SignatureInvalid
      else if exp <? t then inl Expired
      else inr p
  end.

Definition sign (t : Z) (p : TokenPayload) (secret : option string) (ttl : Z)
  : option string :=
  if Js.truthy secret
  then Some ("jwt(" +:+ userId p +:+ "," +:+ default "-" (tokenId p) +:+ ")")
  else None.

(** After validator.js: one [@], no empty dot-separated label in the local
    part or in the domain, and a domain of at least two labels. *)
Definition labels_ok (s : string) : bool :=
  forallb (fun l => negb (bool_decide (l = ""))) (Js.split "." s).

Definition is_email (s : string) : bool :=
  match Js.split "@" s with
  | [user; domain] =>
      labels_ok user && labels_ok domain
      && (1 <? length (Js.split "." domain))%nat
  | _ => false
  end.

Definition recover (msg sig : string) : option string :=
  if bool_decide (sig = "0xbad") then None
  else if bool_decide (msg = "login-nonce-7" /\ sig = "0xa11ce") then Some wallet
  else if bool_decide (msg = "login-nonce-8" /\ sig = "0xb0b") then Some wallet2
  else Some "0x0000000000000000000000000000000000000000".

Definition externals : Externals := {|
  verifyMessage := recover;
  jwt_verify := verify;
  jwt_sign := sign;
  bcrypt_hash := fun data salt => "$2b$10$" +:+ salt +:+ "$" +:+ data;
  bcrypt_compare := fun data hash =>
    bool_decide (String.substring (String.length hash - String.length data - 1)
                                  (S (String.length data)) hash
                 = "$" +:+ data);
  isEmail := is_email;
  random_hex := fun n bytes => String.concat "" (repeat (hex2 n) bytes);
  random_salt := fun n _ => "salt" +:+ hex2 n;
  random_uuid := fun n => "00000000-0000-4000-8000-0000000000" +:+ hex2 n
|}.

Definition cfg : Config := mkConfig (Some "s3cr3t") 900 604800.
Definition cfg_no_secret : Config := mkConfig None 900 604800.

Definition world : World := mkWorld [alice; bob; root; carol] ∅ 1000 0.

(** The same world after an administrator made alice an admin and carol
    moved to another wallet. *)
Definition world_later : World :=
  mkWorld [ mkUser "u-alice" "alice@example.com" "$2b$10$salt00$wonderland"
                   ADMIN None true false;
            bob; root;
            mkUser "u-carol" "carol@example.com" "$2b$10$salt03$0xfeed" WEB3_USER
                   (Some "0xde709f2102306220921060314715629080e2fb77") true true ]
          ∅ 1000 0.

Definition no_body : Body := mkBody None None None None None.

Definition with_bearer (token : string) : Request :=
  mkRequest (Some ("Bearer " +:+ token)) no_body None.

Definition wallet_login (address msg sig : string) : Request :=
  mkRequest None (mkBody (Some address) (Some address) (Some sig) (Some msg) None) None.

Definition refresh_request (token : string) : Request :=
  mkRequest None (mkBody None None None None (Some token)) None.

End Fixture.

(** ** The answer of [authenticateToken] in closed form *)

Section TokenVerdict.
Context `{Externals}.
Variable cfg : Config.

Definition token_reply (w : World) (req : Request) : Reply :=
  let token := Auth.bearer (authorization req) in
  if negb (Js.truthy token) then Failed (api 401 "No token provided")
  else if Js.truthy (redis w !! ("bl_" +:+ default "" token))
  then Failed (api 401 "Token has been revoked")
  else match jwt_verify (now w) (default "" token) (Some (Auth.JWT_SECRET cfg)) with
       | inl _ => Failed (api 401 "Invalid token")
       | inr decoded =>
           match Table.findByPk (userId decoded) (users w) with
           | None => Failed (api 401 "User not found")
           | Some user =>
               if negb (isActive user)
               then Failed (api 401 "User account is inactive")
               else Next (set_user req decoded)
           end
       end.

Definition token_trace (w : World) (req : Request) : list Event :=
  let token := Auth.bearer (authorization req) in
  if negb (Js.truthy token) then []
  else
    let key := "bl_" +:+ default "" token in
    Ev (RedisGet key) (redis w !! key)
    :: if Js.truthy (redis w !! key) then []
       else
         let v := jwt_verify (now w) (default "" token) (Some (Auth.JWT_SECRET cfg)) in
         Ev (JwtVerify (default "" token) (Some (Auth.JWT_SECRET cfg))) v
         :: match v with
            | inl _ => []
            | inr decoded =>
                [Ev (FindByPk (userId decoded))
                    (Table.findByPk (userId decoded) (users w))]
            end.

End TokenVerdict.

(** ** Auxiliary predicates *)

(** A word of a header: no space in it. *)
Definition no_space (s : string) : bool :=
  Js.all_chars (fun c => negb (Ascii.eqb c " ")) s.

(** * Lemmas and theorems *)

(** ** JavaScript strings on examples *)

Example split_bearer : Js.split " " "Bearer abc.def" = ["Bearer"; "abc.def"].
Proof. reflexivity. Qed.

Example split_no_space : Js.index (Js.split " " "abc") 1 = None.
Proof. reflexivity. Qed.

Example split_trailing_space : Js.index (Js.split " " "Bearer ") 1 = Some "".
Proof. reflexivity. Qed.

Example lower_address :
  Js.toLowerCase "0x52908400098527886E0F7030069857D2E4169EE7"
  = "0x52908400098527886e0f7030069857d2e4169ee7".
Proof. reflexivity. Qed.

Example slices :
  Js.slice_to 6 "0x5290aaaaaaaaaaaaaaaaaaaaaaaaaaaaaaaa9ee7" = "0x5290"
  /\ Js.slice_last 4 "0x5290aaaaaaaaaaaaaaaaaaaaaaaaaaaaaaaa9ee7" = "9ee7".
Proof. split; reflexivity. Qed.

Example wallet_address_format :
  is_wallet_address "0x52908400098527886E0F7030069857D2E4169EE7" = true
  /\ is_wallet_address "0x5290" = false
  /\ is_wallet_address "0x52908400098527886E0F7030069857D2E4169EEZ" = false.
Proof. repeat split; reflexivity. Qed.

(** ** Running programs *)

Section Running.
Context `{Externals}.

Lemma run_bind {A B} (p : Prog A) (f : A -> Prog B) (w : World) :
  run (p ≫= f) w =
  match run p w with
  | (inl e, w1, t) => (inl e, w1, t)
  | (inr a, w1, t) =>
      let '(r, w2, t2) := run (f a) w1 in (r, w2, (t ++ t2)%list)
  end.
Proof.
  revert w. induction p as [a|e|X op k IH]; intros w; cbn.
  - destruct (run (f a) w) as [[r w2] t2]. reflexivity.
  - reflexivity.
  - destruct (handle op w) as [x w1].
    change (bind (k x) f) with (k x ≫= f). rewrite IH.
    destruct (run (k x) w1) as [[[e|a] w2] t]; [reflexivity|].
    destruct (run (f a) w2) as [[r w3] t3]. reflexivity.
Qed.

Lemma run_catch {A} (p : Prog A) (h : Exn -> Prog A) (w : World) :
  run (catch p h) w =
  match run p w with
  | (inl e, w1, t) =>
      let '(r, w2, t2) := run (h e) w1 in (r, w2, (t ++ t2)%list)
  | (inr a, w1, t) => (inr a, w1, t)
  end.
Proof.
  revert w. induction p as [a|e|X op k IH]; intros w; cbn.
  - reflexivity.
  - destruct (run (h e) w) as [[r w2] t2]. reflexivity.
  - destruct (handle op w) as [x w1]. rewrite IH.
    destruct (run (k x) w1) as [[[e|a] w2] t]; [|reflexivity].
    destruct (run (h e) w2) as [[r w3] t3]. reflexivity.
Qed.

End Running.

(** ** models/User.ts: hashing only on change *)

Section HashOnChange.
Context `{Externals}.

Lemma find_map {A} (P : A -> bool) (g : A -> A) (l : list A) :
  (forall v, P (g v) = P v) -> find P (map g l) = g <$> find P l.
Proof.
  intros HP. induction l as [|v l IH]; cbn; [reflexivity|].
  rewrite HP. destruct (P v); [reflexivity|exact IH].
Qed.

Lemma findByPk_id (pk : string) (us : list User) (u : User) :
  Table.findByPk pk us = Some u -> id u = pk.
Proof.
  unfold Table.findByPk. intros Hf. apply find_some in Hf as [_ Hid].
  apply bool_decide_eq_true in Hid. exact Hid.
Qed.

Lemma update_keeps_password (fields : gset string) (u : User) (us us' : list User) :
  "password" ∉ fields ->
  Table.update (merge fields) u us = inr us' ->
  forall pk, password <$> Table.findByPk pk us' = password <$> Table.findByPk pk us.
Proof.
  intros Hnot Hup pk. unfold Table.update in Hup.
  destruct (Table.findByPk (id u) us) as [old|] eqn:Hold; [|congruence].
  pose proof (findByPk_id _ _ _ Hold) as Hid.
  destruct (Table.email_taken _ _); [discriminate|].
  destruct (Table.wallet_taken _ _); [discriminate|].
  injection Hup as <-.
  unfold Table.findByPk at 1. rewrite find_map.
  - fold (Table.findByPk pk us).
    destruct (Table.findByPk pk us) as [v|] eqn:Hv; [|reflexivity].
    cbn. f_equal. destruct (decide (id v = id u)) as [Hvu|Hvu];
      [rewrite bool_decide_eq_true_2 by exact Hvu
      |rewrite bool_decide_eq_false_2 by exact Hvu; reflexivity].
    assert (v = old) as ->.
    { pose proof (findByPk_id _ _ _ Hv) as Hpk. rewrite Hvu in Hpk. subst pk.
      congruence. }
    unfold merge. cbn. rewrite bool_decide_eq_false_2 by exact Hnot. reflexivity.
  - intros v. destruct (decide (id v = id u)) as [Hvu|Hvu];
      [rewrite (bool_decide_eq_true_2 _ Hvu)
      |rewrite (bool_decide_eq_false_2 _ Hvu); reflexivity].
    cbn. apply bool_decide_ext. rewrite Hid, Hvu. reflexivity.
Qed.

Lemma hashPassword_unchanged (inst : UserInstance) :
  changed inst "password" = false -> hashPassword inst = Ret inst.
Proof. unfold hashPassword. intros ->. reflexivity. Qed.

Lemma set_password_same (u : User) :
  set_password (loaded u) (password u) = loaded u.
Proof. unfold set_password. cbn. rewrite bool_decide_eq_true_2; reflexivity. Qed.

(** C9.  A save of an instance whose [password] attribute is not marked
    changed runs [hashPassword] without hashing anything, and leaves the
    stored password hash of every row as it was. *)
Theorem save_without_password_change_keeps_hash (inst : UserInstance) (w : World) :
  changed inst "password" = false ->
  beforeSave inst = Ret inst
  /\ forall pk,
       password <$> Table.findByPk pk (users (final (save inst) w))
       = password <$> Table.findByPk pk (users w).
Proof.
  intros Hc. pose proof (hashPassword_unchanged inst Hc) as Hh.
  split; [exact Hh|]. intros pk.
  unfold final, save. rewrite run_bind.
  destruct (validate (dataValues inst)); cbn; [|reflexivity].
  unfold beforeSave. rewrite Hh. cbn.
  case_bool_decide as Hempty; cbn; [reflexivity|].
  destruct (Table.update (merge (changed_keys inst)) (dataValues inst) (users w))
    as [c|us'] eqn:Hup; cbn; [reflexivity|].
  apply (update_keeps_password _ _ _ _ ltac:(
    unfold changed in Hc; apply bool_decide_eq_false in Hc; exact Hc) Hup).
Qed.

End HashOnChange.

Lemma save_without_password_change_keeps_hash_witness :
  let inst := set_password (loaded Fixture.alice) (password Fixture.alice) in
  beforeSave (H := Fixture.externals) inst = Ret inst
  /\ forall pk,
       password <$> Table.findByPk pk
                      (users (final (H := Fixture.externals)
                                (save (H := Fixture.externals) inst) Fixture.world))
       = password <$> Table.findByPk pk (users Fixture.world).
Proof.
  apply (save_without_password_change_keeps_hash (H := Fixture.externals)
           (set_password (loaded Fixture.alice) (password Fixture.alice)) Fixture.world).
  vm_compute. reflexivity.
Defined.

(** Saving a changed email writes the email and keeps the hash; saving a
    changed password stores a fresh hash of it. *)
Example save_changed_email :
  let inst := mkInstance (mkUser "u-alice" "alice@example.org" "$2b$10$salt00$wonderland"
                                 USER None true false) {[ "email" ]} in
  Table.findByPk "u-alice"
    (users (final (H := Fixture.externals) (save (H := Fixture.externals) inst)
                  Fixture.world))
  = Some (mkUser "u-alice" "alice@example.org" "$2b$10$salt00$wonderland"
                 USER None true false).
Proof. vm_compute. reflexivity. Qed.

Example save_changed_password :
  let inst := set_password (loaded Fixture.alice) "looking-glass" in
  password <$> Table.findByPk "u-alice"
                 (users (final (H := Fixture.externals) (save (H := Fixture.externals) inst)
                               Fixture.world))
  = Some "$2b$10$salt00$looking-glass".
Proof. vm_compute. reflexivity. Qed.

(** ** middleware/auth.ts: authenticateToken and the gates *)

Section TokenGate.
Context `{Externals}.
Variable cfg : Config.

Lemma authenticateToken_run (req : Request) (w : World) :
  run (Auth.authenticateToken cfg req) w
  = (inr (token_reply cfg w req), w, token_trace cfg w req).
Proof.
  unfold Auth.authenticateToken, token_reply, token_trace. cbn.
  destruct (Js.truthy (Auth.bearer (authorization req))); cbn; [|reflexivity].
  destruct (Js.truthy (redis w !! _)); cbn; [reflexivity|].
  destruct (jwt_verify _ _ _) as [f|decoded]; cbn; [reflexivity|].
  destruct (Table.findByPk _ _) as [user|]; cbn; [|reflexivity].
  destruct (isActive user); reflexivity.
Qed.

Lemma chain_after_token (rest : list Middleware) (req : Request) (w : World) :
  run (runChain (Async (Auth.authenticateToken cfg) :: rest) req) w
  = match token_reply cfg w req with
    | Next req1 =>
        let '(r, w2, t) := run (runChain rest req1) w in
        (r, w2, (token_trace cfg w req ++ t)%list)
    | other => (inr other, w, token_trace cfg w req)
    end.
Proof.
  cbn [runChain]. rewrite run_bind, run_catch, authenticateToken_run.
  destruct (token_reply cfg w req); cbn; rewrite ?app_nil_r; reflexivity.
Qed.

End TokenGate.

(** ** Order of the checks in [authenticateToken] *)

(** C3 (amended).  For a non-empty bearer token the first operation of
    [authenticateToken] is the lookup of [bl_<token>] in the revocation
    store; if the token is marked nothing else happens; otherwise
    [jwt.verify] (signature and expiry) comes second, and the directory
    lookup follows only when it accepts the token. *)
Theorem authenticateToken_checks_in_order `{Externals}
    (cfg : Config) (req : Request) (w : World) (tok : string) :
  Auth.bearer (authorization req) = Some tok ->
  tok <> "" ->
  let key := "bl_" +:+ tok in
  let v := jwt_verify (now w) tok (Some (Auth.JWT_SECRET cfg)) in
  exists rest,
    trace (Auth.authenticateToken cfg req) w = Ev (RedisGet key) (redis w !! key) :: rest
    /\ (Js.truthy (redis w !! key) = true -> rest = [])
    /\ (Js.truthy (redis w !! key) = false ->
        exists rest',
          rest = Ev (JwtVerify tok (Some (Auth.JWT_SECRET cfg))) v :: rest'
          /\ match v with
             | inl _ => rest' = []
             | inr decoded =>
                 rest' = [Ev (FindByPk (userId decoded))
                             (Table.findByPk (userId decoded) (users w))]
             end).
Proof.
  intros Hb Hne key v. unfold trace. rewrite authenticateToken_run.
  unfold token_trace. rewrite Hb.
  assert (Js.truthy (Some tok) = true) as ->.
  { destruct tok; [congruence|reflexivity]. }
  change (default "" (Some tok)) with tok. fold key. fold v.
  change (negb true) with false. cbv iota. cbn [snd].
  eexists. split; [reflexivity|]. split.
  - intros ->. reflexivity.
  - intros ->. eexists. split; [reflexivity|]. destruct v; reflexivity.
Qed.

Lemma authenticateToken_checks_in_order_witness :
  exists rest,
    trace (H := Fixture.externals)
          (Auth.authenticateToken Fixture.cfg (Fixture.with_bearer "alice.access"))
          Fixture.world
    = Ev (RedisGet "bl_alice.access") None :: rest.
Proof.
  destruct (authenticateToken_checks_in_order (H := Fixture.externals)
              Fixture.cfg (Fixture.with_bearer "alice.access") Fixture.world
              "alice.access" ltac:(reflexivity) ltac:(discriminate))
    as [rest [Ht _]].
  exists rest. exact Ht.
Defined.

(** C3, as stated, fails: a token that [jwt.verify] rejects as malformed
    has already been looked up in the revocation store. *)
Lemma revocation_store_queried_before_signature :
  jwt_verify (Externals := Fixture.externals) 1000 "forged" (Some "s3cr3t") = inl Malformed
  /\ trace (H := Fixture.externals)
           (Auth.authenticateToken Fixture.cfg (Fixture.with_bearer "forged"))
           Fixture.world
     = [ Ev (RedisGet "bl_forged") None;
         Ev (JwtVerify "forged" (Some "s3cr3t")) (inl Malformed) ].
Proof. split; vm_compute; reflexivity. Qed.

(** ** Deactivated accounts *)

Lemma authenticate_inactive `{Externals}
    (cfg : Config) (req : Request) (w : World) (tok : string) (d : TokenPayload) (u : User) :
  Auth.bearer (authorization req) = Some tok ->
  from_option (Js.startsWith "Bearer ") false (authorization req) = true ->
  jwt_verify (now w) tok (env_JWT_SECRET cfg) = inr d ->
  Table.findByPk (userId d) (users w) = Some u ->
  isActive u = false ->
  result (AuthMiddleware.authenticate cfg req) w
  = inr (Sent 403 (JMessage "Account is deactivated")).
Proof.
  intros Hb Hp Hv Hu Ha. unfold result, AuthMiddleware.authenticate.
  cbv zeta. rewrite Hp, Hb. cbn. rewrite Hv. cbn. rewrite Hu. cbn.
  rewrite Ha. reflexivity.
Qed.

(** C4 (amended).  When the account a token names is inactive, the request
    fails at validation, whatever the state of the token: with status 401
    in [authenticateToken] (auth.ts), and with status 403, "Account is
    deactivated", in [authenticate] (authMiddleware.ts) for a token it
    verifies.  Both read the account at validation time. *)
Theorem inactive_account_is_rejected `{Externals}
    (cfg : Config) (req : Request) (w : World) (tok : string) (d : TokenPayload) (u : User) :
  Auth.bearer (authorization req) = Some tok ->
  Table.findByPk (userId d) (users w) = Some u ->
  isActive u = false ->
  (jwt_verify (now w) tok (Some (Auth.JWT_SECRET cfg)) = inr d ->
   exists m, result (Auth.authenticateToken cfg req) w = inr (Failed (api 401 m)))
  /\ (from_option (Js.startsWith "Bearer ") false (authorization req) = true ->
      jwt_verify (now w) tok (env_JWT_SECRET cfg) = inr d ->
      result (AuthMiddleware.authenticate cfg req) w
      = inr (Sent 403 (JMessage "Account is deactivated"))).
Proof.
  intros Hb Hu Ha. split.
  - intros Hv. unfold result. rewrite authenticateToken_run. cbn [fst].
    unfold token_reply. rewrite Hb. change (default "" (Some tok)) with tok.
    destruct (Js.truthy (Some tok)); cbn [negb]; [|eauto].
    destruct (Js.truthy (redis w !! _)); [eauto|].
    rewrite Hv, Hu, Ha. cbn. eauto.
  - intros Hp Hv. eapply authenticate_inactive; eassumption.
Qed.

Lemma inactive_account_is_rejected_witness :
  (exists m, result (H := Fixture.externals)
               (Auth.authenticateToken Fixture.cfg (Fixture.with_bearer "bob.access"))
               Fixture.world
             = inr (Failed (api 401 m)))
  /\ result (H := Fixture.externals)
            (AuthMiddleware.authenticate Fixture.cfg (Fixture.with_bearer "bob.access"))
            Fixture.world
     = inr (Sent 403 (JMessage "Account is deactivated")).
Proof.
  destruct (inactive_account_is_rejected (H := Fixture.externals)
              Fixture.cfg (Fixture.with_bearer "bob.access") Fixture.world
              "bob.access"
              (mkPayload "u-bob" USER None (Some "jti-3")) Fixture.bob
              ltac:(reflexivity) ltac:(reflexivity) ltac:(reflexivity))
    as [Htoken Hmw].
  split.
  - apply Htoken. vm_compute. reflexivity.
  - apply Hmw; vm_compute; reflexivity.
Defined.

(** C4, as stated, fails: [authenticate] answers a valid token of a
    deactivated account with 403, not 401. *)
Lemma deactivated_account_gets_403 :
  isActive Fixture.bob = false
  /\ jwt_verify (Externals := Fixture.externals) 1000 "bob.access" (Some "s3cr3t")
     = inr (mkPayload "u-bob" USER None (Some "jti-3"))
  /\ result (H := Fixture.externals)
            (AuthMiddleware.authenticate Fixture.cfg (Fixture.with_bearer "bob.access"))
            Fixture.world
     = inr (Sent 403 (JMessage "Account is deactivated")).
Proof. repeat split; vm_compute; reflexivity. Qed.

(** ** The signing secret *)

(** C2 (amended).  When [JWT_SECRET] is absent from the environment,
    [authenticateToken] verifies against the built-in value
    ["your-secret-key"]: a token that verifies under that key, is not
    marked revoked and names an active account is accepted. *)
Theorem absent_secret_uses_default `{Externals}
    (accessTtl refreshTtl : Z) (req : Request) (w : World)
    (tok : string) (d : TokenPayload) (u : User) :
  Auth.bearer (authorization req) = Some tok ->
  tok <> "" ->
  Js.truthy (redis w !! ("bl_" +:+ tok)) = false ->
  jwt_verify (now w) tok (Some "your-secret-key") = inr d ->
  Table.findByPk (userId d) (users w) = Some u ->
  isActive u = true ->
  result (Auth.authenticateToken (mkConfig None accessTtl refreshTtl) req) w
  = inr (Next (set_user req d)).
Proof.
  intros Hb Hne Hr Hv Hu Ha. unfold result. rewrite authenticateToken_run.
  cbn [fst]. unfold token_reply. rewrite Hb.
  assert (Js.truthy (Some tok) = true) as ->.
  { destruct tok; [congruence|reflexivity]. }
  change (default "" (Some tok)) with tok. cbn [negb]. rewrite Hr.
  change (Auth.JWT_SECRET (mkConfig None accessTtl refreshTtl)) with "your-secret-key".
  rewrite Hv, Hu, Ha. reflexivity.
Qed.

Lemma absent_secret_uses_default_witness :
  result (H := Fixture.externals)
         (Auth.authenticateToken Fixture.cfg_no_secret (Fixture.with_bearer "root.default"))
         Fixture.world
  = inr (Next (set_user (Fixture.with_bearer "root.default")
                        (mkPayload "u-root" ADMIN None (Some "jti-4")))).
Proof.
  apply (absent_secret_uses_default (H := Fixture.externals)
           900 604800 (Fixture.with_bearer "root.default") Fixture.world
           "root.default" (mkPayload "u-root" ADMIN None (Some "jti-4")) Fixture.root);
    solve [reflexivity | discriminate | vm_compute; reflexivity].
Defined.

(** C2, as stated, fails: with no secret configured, a token signed with
    the built-in default is verified and accepted, and no configuration
    error is raised. *)
Lemma default_secret_accepts_token :
  env_JWT_SECRET Fixture.cfg_no_secret = None
  /\ run (H := Fixture.externals)
         (Auth.authenticateToken Fixture.cfg_no_secret (Fixture.with_bearer "root.default"))
         Fixture.world
     = (inr (Next (set_user (Fixture.with_bearer "root.default")
                            (mkPayload "u-root" ADMIN None (Some "jti-4")))),
        Fixture.world,
        [ Ev (RedisGet "bl_root.default") None;
          Ev (JwtVerify "root.default" (Some "your-secret-key"))
             (inr (mkPayload "u-root" ADMIN None (Some "jti-4")));
          Ev (FindByPk "u-root") (Some Fixture.root) ]).
Proof. split; vm_compute; reflexivity. Qed.

(** [authenticate] (authMiddleware.ts) has no default: its first operation
    is [jwt.verify] with the secret as configured, absent or not. *)
Lemma authenticate_uses_configured_secret `{Externals}
    (cfg : Config) (req : Request) (w : World) :
  from_option (Js.startsWith "Bearer ") false (authorization req) = true ->
  let token := default "" (Auth.bearer (authorization req)) in
  exists rest,
    trace (AuthMiddleware.authenticate cfg req) w
    = Ev (JwtVerify token (env_JWT_SECRET cfg))
         (jwt_verify (now w) token (env_JWT_SECRET cfg)) :: rest.
Proof.
  intros Hp token. unfold trace, AuthMiddleware.authenticate. cbv zeta.
  rewrite Hp. fold token. cbn.
  destruct (jwt_verify (now w) token (env_JWT_SECRET cfg)) as [f|d]; cbn;
    [eexists; reflexivity|].
  destruct (Table.findByPk _ _) as [u|]; cbn; [|eexists; reflexivity].
  destruct (isActive u); cbn; eexists; reflexivity.
Qed.

(** ** The wallet gates *)

Lemma token_reply_of_result `{Externals} (cfg : Config) (req : Request) (w : World) (r : Reply) :
  result (Auth.authenticateToken cfg req) w = inr r -> token_reply cfg w req = r.
Proof.
  unfold result. rewrite authenticateToken_run. cbn. congruence.
Qed.

(** C7 (amended).  For a validated identity whose [walletAddress] is
    absent, [requireWallet] and the wallet step of [requireWeb3Auth] fail
    with status 401. *)
Theorem wallet_gates_fail_with_401 `{Externals}
    (cfg : Config) (req req1 : Request) (w : World) (p : TokenPayload) :
  result (Auth.authenticateToken cfg req) w = inr (Next req1) ->
  req_user req1 = Some p ->
  Js.truthy (walletAddress p) = false ->
  result (runChain (Auth.requireWallet cfg) req) w
  = inr (Failed (api 401 "Wallet authentication required"))
  /\ result (runChain (Auth.requireWeb3Auth cfg) req) w
     = inr (Failed (api 401 "Web3 authentication required")).
Proof.
  intros Hok Hp Hw. apply token_reply_of_result in Hok.
  unfold result, Auth.requireWallet, Auth.requireWeb3Auth.
  rewrite !chain_after_token, Hok. cbn. unfold Auth.the_user.
  rewrite Hp. cbn. rewrite Hw. cbn. split; reflexivity.
Qed.

Lemma wallet_gates_fail_with_401_witness :
  result (H := Fixture.externals)
         (runChain (Auth.requireWallet Fixture.cfg) (Fixture.with_bearer "alice.access"))
         Fixture.world
  = inr (Failed (api 401 "Wallet authentication required"))
  /\ result (H := Fixture.externals)
            (runChain (Auth.requireWeb3Auth Fixture.cfg) (Fixture.with_bearer "alice.access"))
            Fixture.world
     = inr (Failed (api 401 "Web3 authentication required")).
Proof.
  apply (wallet_gates_fail_with_401 (H := Fixture.externals)
           Fixture.cfg (Fixture.with_bearer "alice.access")
           (set_user (Fixture.with_bearer "alice.access")
                     (mkPayload "u-alice" USER None (Some "jti-1")))
           Fixture.world (mkPayload "u-alice" USER None (Some "jti-1")));
    vm_compute; reflexivity.
Defined.

(** C7, as stated, fails: the status carried is 401, not 403. *)
Lemma requireWallet_status_is_401 :
  result (H := Fixture.externals)
         (Auth.authenticateToken Fixture.cfg (Fixture.with_bearer "alice.access"))
         Fixture.world
  = inr (Next (set_user (Fixture.with_bearer "alice.access")
                        (mkPayload "u-alice" USER None (Some "jti-1"))))
  /\ (exists r,
        result (H := Fixture.externals)
               (runChain (Auth.requireWallet Fixture.cfg) (Fixture.with_bearer "alice.access"))
               Fixture.world = inr r
        /\ status_of r = Some 401 /\ status_of r <> Some 403)
  /\ (exists r,
        result (H := Fixture.externals)
               (runChain (Auth.requireWeb3Auth Fixture.cfg) (Fixture.with_bearer "alice.access"))
               Fixture.world = inr r
        /\ status_of r = Some 401 /\ status_of r <> Some 403).
Proof.
  split; [vm_compute; reflexivity|].
  split; eexists; (split; [vm_compute; reflexivity|]); split;
    [reflexivity|discriminate|reflexivity|discriminate].
Qed.

(** ** The gates read the token, not the directory *)

Section TokenOnly.
Context `{Externals}.
Variable cfg : Config.

Lemma findByPk_related (pk : string) (us1 us2 : list User) :
  Forall2 same_but_role_wallet us1 us2 ->
  option_Forall2 same_but_role_wallet (Table.findByPk pk us1) (Table.findByPk pk us2).
Proof.
  unfold Table.findByPk.
  induction 1 as [|u v us1 us2 Huv _ IH]; cbn; [constructor|].
  destruct Huv as (Hid & Hrest). rewrite Hid.
  destruct (bool_decide (id v = pk)); [|exact IH].
  constructor. split; assumption.
Qed.

Lemma token_reply_related (req : Request) (w1 w2 : World) :
  same_but_roles_wallets w1 w2 ->
  token_reply cfg w1 req = token_reply cfg w2 req.
Proof.
  intros (Hus & Hr & Hn & _). unfold token_reply. rewrite Hr, Hn.
  destruct (negb _); [reflexivity|].
  destruct (Js.truthy _); [reflexivity|].
  destruct (jwt_verify _ _ _) as [f|d]; [reflexivity|].
  destruct (findByPk_related (userId d) _ _ Hus) as [u v Huv|]; [|reflexivity].
  destruct Huv as (_ & _ & _ & -> & _). reflexivity.
Qed.

(** A gate that performs no operation answers the same in every world. *)
Lemma gate_result (rest : list Middleware) (req : Request) (w1 w2 : World) :
  same_but_roles_wallets w1 w2 ->
  (forall req1, result (runChain rest req1) w1 = result (runChain rest req1) w2) ->
  result (runChain (Async (Auth.authenticateToken cfg) :: rest) req) w1
  = result (runChain (Async (Auth.authenticateToken cfg) :: rest) req) w2.
Proof.
  intros Hw Hrest. unfold result in *. rewrite !chain_after_token.
  rewrite (token_reply_related req w1 w2 Hw).
  destruct (token_reply cfg w2 req) as [req1| | | |]; try reflexivity.
  specialize (Hrest req1).
  destruct (run (runChain rest req1) w1) as [[r1 w1'] t1].
  destruct (run (runChain rest req1) w2) as [[r2 w2'] t2].
  exact Hrest.
Qed.

End TokenOnly.

(** C10.  In two worlds whose directories differ at most in the current
    role and wallet address of the accounts, a request gets the same answer
    from [authenticateToken] followed by [requireRole], from
    [requireWeb3Auth] and from [requireWallet]. *)
Theorem gates_decide_from_the_token `{Externals}
    (cfg : Config) (roles : list UserRole) (req : Request) (w1 w2 : World) :
  same_but_roles_wallets w1 w2 ->
  result (runChain (Auth.requireAuth cfg ++ [Auth.requireRole roles]) req) w1
  = result (runChain (Auth.requireAuth cfg ++ [Auth.requireRole roles]) req) w2
  /\ result (runChain (Auth.requireWeb3Auth cfg) req) w1
     = result (runChain (Auth.requireWeb3Auth cfg) req) w2
  /\ result (runChain (Auth.requireWallet cfg) req) w1
     = result (runChain (Auth.requireWallet cfg) req) w2.
Proof.
  intros Hw.
  assert (forall g req1,
             (forall w, result (runChain [Sync g] req1) w
                        = result (runChain [Sync g] req1) w1) ->
             result (runChain [Sync g] req1) w1 = result (runChain [Sync g] req1) w2)
    as Hpure by (intros g req1 Hg; symmetry; apply Hg).
  repeat split; apply gate_result; try exact Hw; intros req1; apply Hpure; intros w;
    unfold result; cbn; unfold Auth.the_user;
    destruct (req_user req1) as [p|]; cbn; try reflexivity.
  - destruct (bool_decide _); reflexivity.
  - destruct (Js.truthy _); reflexivity.
  - destruct (Js.truthy _); reflexivity.
Qed.

Lemma gates_decide_from_the_token_witness :
  result (H := Fixture.externals)
         (runChain (Auth.requireAuth Fixture.cfg ++ [Auth.requireRole [ADMIN]])
                   (Fixture.with_bearer "alice.access"))
         Fixture.world
  = result (H := Fixture.externals)
           (runChain (Auth.requireAuth Fixture.cfg ++ [Auth.requireRole [ADMIN]])
                     (Fixture.with_bearer "alice.access"))
           Fixture.world_later.
Proof.
  apply (gates_decide_from_the_token (H := Fixture.externals)
           Fixture.cfg [ADMIN] (Fixture.with_bearer "alice.access")
           Fixture.world Fixture.world_later).
  repeat split; repeat constructor.
Defined.

(** The token of alice still says [USER] after her promotion, and
    [requireRole [ADMIN]] turns her away in both worlds. *)
Example requireRole_uses_token_role :
  result (H := Fixture.externals)
         (runChain (Auth.requireAuth Fixture.cfg ++ [Auth.requireRole [ADMIN]])
                   (Fixture.with_bearer "alice.access"))
         Fixture.world_later
  = inr (Failed (api 403 "Insufficient permissions")).
Proof. vm_compute. reflexivity. Qed.

(** [requireVerifiedWallet] alone looks the wallet up again: after carol
    moved to another wallet, her old token passes [requireWallet] and is
    refused by [requireVerifiedWallet]. *)
Example requireVerifiedWallet_reads_directory :
  (exists req1,
     result (H := Fixture.externals)
            (runChain (Auth.requireVerifiedWallet Fixture.cfg)
                      (Fixture.with_bearer "carol.access"))
            Fixture.world = inr (Next req1))
  /\ (exists req1,
        result (H := Fixture.externals)
               (runChain (Auth.requireWallet Fixture.cfg)
                         (Fixture.with_bearer "carol.access"))
               Fixture.world_later = inr (Next req1))
  /\ result (H := Fixture.externals)
            (runChain (Auth.requireVerifiedWallet Fixture.cfg)
                      (Fixture.with_bearer "carol.access"))
            Fixture.world_later
     = inr (Rejected (api 403 "Wallet not verified")).
Proof.
  split; [eexists; vm_compute; reflexivity|].
  split; [eexists; vm_compute; reflexivity|].
  vm_compute. reflexivity.
Qed.

(** ** How programs end *)

Arguments changed : simpl never.
Arguments validate : simpl never.
Arguments set_password : simpl never.
Arguments build : simpl never.

Section Ends.
Context `{Externals}.

Lemma ends_weaken {A} (T T' : Exn -> Prop) (R R' : A -> Prop) (p : Prog A) :
  (forall e, T e -> T' e) -> (forall a, R a -> R' a) ->
  ends T R p -> ends T' R' p.
Proof.
  intros HT HR. induction p as [a|e|X op k IH]; cbn; auto.
Qed.

Lemma ends_bind {A B} (T : Exn -> Prop) (R : A -> Prop) (R' : B -> Prop)
    (p : Prog A) (f : A -> Prog B) :
  ends T R p -> (forall a, R a -> ends T R' (f a)) -> ends T R' (p ≫= f).
Proof.
  intros Hp Hf. induction p as [a|e|X op k IH]; cbn in *; auto.
  intros x. apply IH, Hp.
Qed.

Lemma ends_catch {A} (T T' : Exn -> Prop) (R : A -> Prop)
    (p : Prog A) (h : Exn -> Prog A) :
  ends T R p -> (forall e, T e -> ends T' R (h e)) -> ends T' R (catch p h).
Proof.
  intros Hp Hh. induction p as [a|e|X op k IH]; cbn in *; auto.
Qed.

Lemma ends_result {A} (T : Exn -> Prop) (R : A -> Prop) (p : Prog A) (w : World) :
  ends T R p ->
  match result p w with inl e => T e | inr a => R a end.
Proof.
  unfold result. revert w.
  induction p as [a|e|X op k IH]; intros w Hp; cbn in *; auto.
  destruct (handle op w) as [x w1]. specialize (IH x w1 (Hp x)).
  destruct (run (k x) w1) as [[r w2] t]. exact IH.
Qed.

Lemma User_create_ends (a : CreateUserAttributes) :
  ends plain_error (fun _ => True) (User_create a).
Proof.
  unfold User_create, beforeSave, hashPassword, plain_error. cbn. intros uuid.
  destruct (validate _); cbn; [|eauto].
  destruct (changed _ _); cbn.
  - intros salt [c|u]; cbn; eauto.
  - intros [c|u]; cbn; eauto.
Qed.

Lemma generateTokenPair_ends (cfg : Config) (p : TokenPayload) :
  ends plain_error (fun _ => True) (JwtUtils.generateTokenPair cfg p).
Proof.
  unfold JwtUtils.generateTokenPair, plain_error.
  destruct (env_JWT_SECRET cfg); cbn; [|eauto].
  intros jti1 jti2 [a|] [r|]; cbn; eauto.
Qed.

End Ends.

(** ** The signature check of the wallet logins *)

Section SignatureCheck.
Context `{Externals}.
Variable cfg : Config.

Lemma truthy_Some (s : string) : s <> "" -> Js.truthy (Some s) = true.
Proof. destruct s; [congruence|reflexivity]. Qed.

Lemma result_of_ends (p : Prog Reply) (w : World) (R : Reply -> Prop) :
  ends (fun _ => False) R p -> exists r, result p w = inr r /\ R r.
Proof.
  intros Hp. pose proof (ends_result _ _ p w Hp) as Hr.
  destruct (result p w) as [e|r]; [contradiction|eauto].
Qed.

Lemma authenticateWallet_signature
    (req : Request) (w : World) (address sig msg recovered : string) :
  b_walletAddress (body req) = Some address ->
  b_signature (body req) = Some sig ->
  b_message (body req) = Some msg ->
  address <> "" -> sig <> "" -> msg <> "" ->
  verifyMessage msg sig = Some recovered ->
  exists r,
    result (Auth.authenticateWallet cfg req) w = inr r
    /\ (status_of r = Some 401
        <-> Js.toLowerCase recovered <> Js.toLowerCase address)
    /\ (Js.toLowerCase recovered <> Js.toLowerCase address ->
        r = Failed (api 401 "Invalid signature")).
Proof.
  intros Ha Hs Hm Hane Hsne Hmne Hrec.
  unfold Auth.authenticateWallet. cbv zeta.
  rewrite Ha, Hs, Hm, !truthy_Some by assumption.
  change (default "" (Some ?x)) with x. cbn [negb orb throw_if].
  cbn [mbind Prog_bind bind]. rewrite Hrec.
  destruct (decide (Js.toLowerCase recovered = Js.toLowerCase address)) as [Heq|Hne].
  - rewrite bool_decide_eq_true_2 by exact Heq. cbn [negb throw_if bind].
    match goal with |- exists r, result ?q w = inr r /\ _ => set (p := q) end.
    destruct (result_of_ends p w (fun r => status_of r <> Some 401)) as (r & Hr & Hst).
    { subst p. eapply ends_catch with (T := plain_error).
      - eapply ends_bind with (R := fun _ => True); [exact I|]. intros _ _.
        eapply ends_bind with (R := fun _ => True); [cbn; intros; exact I|].
        intros found _.
        eapply ends_bind with (R := fun _ => True).
        + destruct found; [exact I|].
          eapply ends_bind with (R := fun _ => True); [cbn; intros; exact I|].
          intros; apply User_create_ends.
        + intros user _. eapply ends_bind; [apply generateTokenPair_ends|].
          intros tokens _. cbn. discriminate.
      - intros e [m ->]. cbn. discriminate. }
    exists r. split; [exact Hr|]. split; [|intros Hne; contradiction].
    split; [intros Hs401; contradiction|intros Hne; contradiction].
  - rewrite bool_decide_eq_false_2 by exact Hne.
    eexists. split; [reflexivity|]. split; [|reflexivity].
    split; [intros _; exact Hne|reflexivity].
Qed.

Lemma authenticateWeb3_signature
    (req : Request) (w : World) (address sig msg recovered : string) :
  b_address (body req) = Some address ->
  b_signature (body req) = Some sig ->
  b_message (body req) = Some msg ->
  address <> "" -> sig <> "" -> msg <> "" ->
  verifyMessage msg sig = Some recovered ->
  exists r,
    result (AuthMiddleware.authenticateWeb3 cfg req) w = inr r
    /\ (status_of r = Some 401
        <-> Js.toLowerCase recovered <> Js.toLowerCase address)
    /\ (Js.toLowerCase recovered <> Js.toLowerCase address ->
        r = Sent 401 (JMessage "Invalid signature")).
Proof.
  intros Ha Hs Hm Hane Hsne Hmne Hrec.
  unfold AuthMiddleware.authenticateWeb3. cbv zeta.
  rewrite Ha, Hs, Hm, !truthy_Some by assumption.
  change (default "" (Some ?x)) with x. cbn [negb orb]. rewrite Hrec.
  destruct (decide (Js.toLowerCase recovered = Js.toLowerCase address)) as [Heq|Hne].
  - rewrite bool_decide_eq_true_2 by exact Heq. cbn [negb].
    match goal with |- exists r, result ?q w = inr r /\ _ => set (p := q) end.
    destruct (result_of_ends p w (fun r => status_of r <> Some 401)) as (r & Hr & Hst).
    { subst p. eapply ends_catch with (T := fun _ => True).
      - eapply ends_bind with (R := fun _ => True); [cbn; intros; exact I|].
        intros found _.
        eapply ends_bind with (R := fun _ => True).
        + destruct found; [exact I|].
          eapply ends_bind with (R := fun _ => True); [cbn; intros; exact I|].
          intros. eapply ends_weaken; [| |apply User_create_ends]; auto.
        + intros user _. destruct (negb (isActive user)); [cbn; discriminate|].
          cbn. intros [token|]; cbn; [discriminate|exact I].
      - intros e _. cbn. intros _. discriminate. }
    exists r. split; [exact Hr|]. split; [|intros Hne; contradiction].
    split; [intros Hs401; contradiction|intros Hne; contradiction].
  - rewrite bool_decide_eq_false_2 by exact Hne.
    eexists. split; [reflexivity|]. split; [|reflexivity].
    split; [intros _; exact Hne|reflexivity].
Qed.

End SignatureCheck.

(** C8.  For a wallet-login request carrying an address, a message and a
    signature from which an address is recovered, the reply has status 401
    exactly when the recovered address and the claimed one differ after
    lowercasing, and it is then the "Invalid signature" reply; this holds
    for [authenticateWallet] and for [authenticateWeb3]. *)
Theorem signature_mismatch_iff_401 `{Externals}
    (cfg : Config) (req : Request) (w : World) (address sig msg recovered : string) :
  b_signature (body req) = Some sig ->
  b_message (body req) = Some msg ->
  address <> "" -> sig <> "" -> msg <> "" ->
  verifyMessage msg sig = Some recovered ->
  (b_walletAddress (body req) = Some address ->
   exists r,
     result (Auth.authenticateWallet cfg req) w = inr r
     /\ (status_of r = Some 401
         <-> Js.toLowerCase recovered <> Js.toLowerCase address)
     /\ (Js.toLowerCase recovered <> Js.toLowerCase address ->
         r = Failed (api 401 "Invalid signature")))
  /\ (b_address (body req) = Some address ->
      exists r,
        result (AuthMiddleware.authenticateWeb3 cfg req) w = inr r
        /\ (status_of r = Some 401
            <-> Js.toLowerCase recovered <> Js.toLowerCase address)
        /\ (Js.toLowerCase recovered <> Js.toLowerCase address ->
            r = Sent 401 (JMessage "Invalid signature"))).
Proof.
  intros Hs Hm Hane Hsne Hmne Hrec. split; intros Ha.
  - eapply authenticateWallet_signature; eassumption.
  - eapply authenticateWeb3_signature; eassumption.
Qed.

Lemma signature_mismatch_iff_401_witness :
  (exists r,
     result (H := Fixture.externals)
            (Auth.authenticateWallet (H := Fixture.externals) Fixture.cfg
               (Fixture.wallet_login Fixture.wallet_lower "login-nonce-7" "0xa11ce"))
            Fixture.world = inr r
     /\ (status_of r = Some 401
         <-> Js.toLowerCase Fixture.wallet <> Js.toLowerCase Fixture.wallet_lower)
     /\ (Js.toLowerCase Fixture.wallet <> Js.toLowerCase Fixture.wallet_lower ->
         r = Failed (api 401 "Invalid signature")))
  /\ (exists r,
        result (H := Fixture.externals)
               (AuthMiddleware.authenticateWeb3 (H := Fixture.externals) Fixture.cfg
                  (Fixture.wallet_login Fixture.wallet_lower "login-nonce-7" "0xa11ce"))
               Fixture.world = inr r
        /\ (status_of r = Some 401
            <-> Js.toLowerCase Fixture.wallet <> Js.toLowerCase Fixture.wallet_lower)
        /\ (Js.toLowerCase Fixture.wallet <> Js.toLowerCase Fixture.wallet_lower ->
            r = Sent 401 (JMessage "Invalid signature"))).
Proof.
  destruct (signature_mismatch_iff_401 (H := Fixture.externals) Fixture.cfg
              (Fixture.wallet_login Fixture.wallet_lower "login-nonce-7" "0xa11ce")
              Fixture.world Fixture.wallet_lower "0xa11ce" "login-nonce-7" Fixture.wallet
              ltac:(reflexivity) ltac:(reflexivity)
              ltac:(discriminate) ltac:(discriminate) ltac:(discriminate)
              ltac:(reflexivity))
    as [Hwallet Hweb3].
  split; [apply Hwallet|apply Hweb3]; reflexivity.
Defined.

(** The same signature presented for another address is refused, and the
    checksummed spelling of the signer's address is accepted. *)
Example signature_for_another_address :
  result (H := Fixture.externals)
         (Auth.authenticateWallet (H := Fixture.externals) Fixture.cfg
            (Fixture.wallet_login Fixture.wallet2 "login-nonce-7" "0xa11ce"))
         Fixture.world
  = inr (Failed (api 401 "Invalid signature"))
  /\ status_of <$> (match result (H := Fixture.externals)
                            (Auth.authenticateWallet (H := Fixture.externals) Fixture.cfg
                               (Fixture.wallet_login Fixture.wallet "login-nonce-7" "0xa11ce"))
                            Fixture.world
                    with inr r => Some r | inl _ => None end)
     = Some (Some 200).
Proof. split; vm_compute; reflexivity. Qed.

(** ** Accounts created at first wallet login *)

Section FirstLogin.
Context `{Externals}.
Variable cfg : Config.

Lemma run_bind_inr {A B} (p : Prog A) (f : A -> Prog B) w b w' t :
  run (p ≫= f) w = (inr b, w', t) ->
  exists a w1 t1 t2,
    run p w = (inr a, w1, t1) /\ run (f a) w1 = (inr b, w', t2)
    /\ t = (t1 ++ t2)%list.
Proof.
  rewrite run_bind. destruct (run p w) as [[[e|a] w1] t1]; [discriminate|].
  destruct (run (f a) w1) as [[r w2] t2] eqn:Hf. intros [= -> -> <-].
  exists a, w1, t1, t2. auto.
Qed.

Lemma run_throw_if (c : bool) (e : Exn) (w : World) :
  run (throw_if c e) w = if c then (inl e, w, []) else (inr tt, w, []).
Proof. destruct c; reflexivity. Qed.

Lemma with_password_same (u : User) : with_password u (password u) = u.
Proof. destruct u; reflexivity. Qed.

Lemma dataValues_set_password (inst : UserInstance) (v : string) :
  dataValues (set_password inst v) = with_password (dataValues inst) v.
Proof.
  unfold set_password. case_bool_decide as Hv; [|reflexivity].
  rewrite <- Hv, with_password_same. reflexivity.
Qed.

Lemma changed_build (uuid : string) (a : CreateUserAttributes) :
  changed (build uuid a) "password" = true.
Proof.
  unfold changed, build, Columns.given. cbn.
  apply bool_decide_eq_true_2. set_solver.
Qed.

Lemma insert_inr (u : User) (us us' : list User) :
  Table.insert u us = inr us' -> us' = (us ++ [u])%list.
Proof.
  unfold Table.insert.
  destruct (Table.id_taken u us); [discriminate|].
  destruct (Table.email_taken u us); [discriminate|].
  destruct (Table.wallet_taken u us); [discriminate|].
  congruence.
Qed.

(** What a successful [User.create] has done. *)
Lemma User_create_inr (a : CreateUserAttributes) (w w' : World) (u : User) t :
  run (User_create a) w = (inr u, w', t) ->
  (exists salt,
     u = with_password (dataValues (build (random_uuid (draws w)) a))
                       (bcrypt_hash (a_password a) salt))
  /\ users w' = (users w ++ [u])%list.
Proof.
  unfold User_create, beforeSave, hashPassword. cbn.
  destruct (validate _); cbn; [|discriminate].
  rewrite changed_build. cbn.
  destruct (Table.insert _ _) as [c|us'] eqn:Hins; cbn; [discriminate|].
  intros [= <- <- <-]. apply insert_inr in Hins. cbn.
  rewrite dataValues_set_password in *. split; [|exact Hins].
  eexists. reflexivity.
Qed.

Lemma generateTokenPair_users (p : TokenPayload) (w : World) :
  users (final (JwtUtils.generateTokenPair cfg p) w) = users w.
Proof.
  unfold final, JwtUtils.generateTokenPair.
  destruct (env_JWT_SECRET cfg); cbn; [|reflexivity].
  destruct (jwt_sign _ _ _ _); destruct (jwt_sign _ _ _ _); reflexivity.
Qed.

End FirstLogin.

Arguments User_create : simpl never.
Arguments JwtUtils.generateTokenPair : simpl never.

Section FirstLoginAccounts.
Context `{Externals}.
Variable cfg : Config.

Lemma authenticateWallet_creates
    (req : Request) (w : World) (address : string) (j : Json) :
  b_walletAddress (body req) = Some address ->
  Table.findOneByWallet (Some address) (users w) = None ->
  result (Auth.authenticateWallet cfg req) w = inr (Sent 200 j) ->
  exists u salt,
    users (final (Auth.authenticateWallet cfg req) w) = (users w ++ [u])%list
    /\ user_role u = WEB3_USER
    /\ isActive u = true
    /\ isWalletVerified u = true
    /\ user_walletAddress u = Some address
    /\ email u = address +:+ "@web3.user"
    /\ password u = bcrypt_hash ("0x" +:+ random_hex (draws w) 32) salt.
Proof.
  intros Ha Hnone. unfold result, final, Auth.authenticateWallet. cbv zeta.
  rewrite Ha. change (default "" (Some address)) with address.
  rewrite run_catch, run_bind, run_throw_if.
  destruct (_ || _); [cbn; discriminate|].
  destruct (verifyMessage _ _) as [recovered|]; [|cbn; discriminate].
  rewrite run_bind, run_throw_if.
  destruct (negb _); [cbn; discriminate|].
  rewrite run_bind. cbn [run call handle]. rewrite Hnone.
  rewrite run_bind, run_bind. cbn [run call handle].
  destruct (run (User_create _) (tick w)) as [[[e|u] w1] t1] eqn:Hc;
    [destruct e; cbn; discriminate|].
  rewrite run_bind.
  destruct (run (JwtUtils.generateTokenPair cfg _) w1) as [[[e|tokens] w2] t2] eqn:Hg;
    [destruct e; cbn; discriminate|].
  cbn. intros _.
  apply User_create_inr in Hc as [[salt Hu] Hus].
  pose proof (generateTokenPair_users cfg
                (mkPayload (id u) (user_role u) (user_walletAddress u) None) w1) as Hk.
  unfold final in Hk. rewrite Hg in Hk. cbn in Hk, Hus.
  exists u, salt. split; [congruence|].
  rewrite Hu. unfold build. cbn. repeat split; reflexivity.
Qed.

(** The email [authenticateWeb3] synthesizes has three dots in a row; when
    [isEmail] refuses it, [User.create] fails in validation, so a login for
    an address without an account is never answered 200 and inserts
    nothing. *)
Lemma authenticateWeb3_first_login_fails (req : Request) (w : World) (address : string) :
  b_address (body req) = Some address ->
  Table.findOneByWallet (Some address) (users w) = None ->
  isEmail (Js.slice_to 6 address +:+ "..." +:+ Js.slice_last 4 address
           +:+ "@web3.user") = false ->
  (exists r, result (AuthMiddleware.authenticateWeb3 cfg req) w = inr r
             /\ status_of r <> Some 200)
  /\ users (final (AuthMiddleware.authenticateWeb3 cfg req) w) = users w.
Proof.
  intros Ha Hnone Hmail. unfold result, final, AuthMiddleware.authenticateWeb3. cbv zeta.
  rewrite Ha. change (default "" (Some address)) with address.
  rewrite run_catch.
  destruct (_ || _); [cbn; split; [eexists; split; [reflexivity|discriminate]|reflexivity]|].
  destruct (verifyMessage _ _) as [recovered|];
    [|cbn; split; [eexists; split; [reflexivity|discriminate]|reflexivity]].
  destruct (negb (bool_decide _));
    [cbn; split; [eexists; split; [reflexivity|discriminate]|reflexivity]|].
  rewrite run_bind. cbn [run call handle]. rewrite Hnone.
  rewrite run_bind, run_bind. cbn [run call handle].
  unfold User_create. rewrite run_bind. cbn [run call handle]. rewrite run_bind.
  assert (validate
            (dataValues
               (build (random_uuid (draws (tick w)))
                  (mkAttrs (Js.slice_to 6 address +:+ "..." +:+ Js.slice_last 4 address
                            +:+ "@web3.user")
                           (random_hex (draws w) 32) (Some WEB3_USER) (Some address)
                           (Some true) None))) = false) as Hval.
  { unfold validate, build. cbn [dataValues email a_email]. rewrite Hmail. reflexivity. }
  rewrite Hval. cbn.
  split; [eexists; split; [reflexivity|discriminate]|reflexivity].
Qed.

Lemma string_length_app (s t : string) :
  String.length (s +:+ t) = (String.length s + String.length t)%nat.
Proof. induction s as [|c s IH]; simpl; [reflexivity|]. f_equal. exact IH. Qed.

Lemma string_app_inv_tail (s1 s2 t : string) : s1 +:+ t = s2 +:+ t -> s1 = s2.
Proof.
  revert s2. induction s1 as [|c s1 IH]; intros [|d s2] Heq.
  - reflexivity.
  - apply (f_equal String.length) in Heq. rewrite !string_length_app in Heq.
    simpl in Heq. lia.
  - apply (f_equal String.length) in Heq. rewrite !string_length_app in Heq.
    simpl in Heq. lia.
  - simpl in Heq. injection Heq as -> Heq. f_equal. apply IH, Heq.
Qed.

End FirstLoginAccounts.

(** C6.  When no account holds the address, a successful wallet login
    creates one account with role [WEB3_USER], [isActive = true],
    [isWalletVerified = true], the address as wallet address, the email
    [<address>@web3.user], from which the address can be read back, and as
    password the hash of a value made of 32 random bytes.  Such a login
    always goes through [authenticateWallet]: the email [authenticateWeb3]
    synthesizes is refused by [isEmail] (validator.js accepts no empty
    label in the local part), so [authenticateWeb3] never answers 200 for
    an address without an account and creates nothing. *)
Theorem first_wallet_login_creates_account `{Externals}
    (cfg : Config) (req : Request) (w : World) (address : string) :
  Table.findOneByWallet (Some address) (users w) = None ->
  isEmail (Js.slice_to 6 address +:+ "..." +:+ Js.slice_last 4 address
           +:+ "@web3.user") = false ->
  (forall j,
     b_walletAddress (body req) = Some address ->
     result (Auth.authenticateWallet cfg req) w = inr (Sent 200 j) ->
     exists u salt,
       users (final (Auth.authenticateWallet cfg req) w) = (users w ++ [u])%list
       /\ user_role u = WEB3_USER
       /\ isActive u = true
       /\ isWalletVerified u = true
       /\ user_walletAddress u = Some address
       /\ email u = address +:+ "@web3.user"
       /\ password u = bcrypt_hash ("0x" +:+ random_hex (draws w) 32) salt)
  /\ (b_address (body req) = Some address ->
      (exists r, result (AuthMiddleware.authenticateWeb3 cfg req) w = inr r
                 /\ status_of r <> Some 200)
      /\ users (final (AuthMiddleware.authenticateWeb3 cfg req) w) = users w)
  /\ (forall other, address +:+ "@web3.user" = other +:+ "@web3.user" -> address = other).
Proof.
  intros Hnone Hmail. split; [|split].
  - intros j Ha Hres. eapply authenticateWallet_creates; eassumption.
  - intros Ha. eapply authenticateWeb3_first_login_fails; eassumption.
  - intros other. apply string_app_inv_tail.
Qed.

Lemma first_wallet_login_creates_account_witness :
  (exists u salt,
     users (final (H := Fixture.externals)
              (Auth.authenticateWallet (H := Fixture.externals) Fixture.cfg
                 (Fixture.wallet_login Fixture.wallet_lower "login-nonce-7" "0xa11ce"))
              Fixture.world)
     = (users Fixture.world ++ [u])%list
     /\ user_role u = WEB3_USER
     /\ isActive u = true
     /\ isWalletVerified u = true
     /\ user_walletAddress u = Some Fixture.wallet_lower
     /\ email u = Fixture.wallet_lower +:+ "@web3.user"
     /\ password u
        = bcrypt_hash (Externals := Fixture.externals)
            ("0x" +:+ random_hex (Externals := Fixture.externals) 0 32) salt)
  /\ (exists r,
        result (H := Fixture.externals)
               (AuthMiddleware.authenticateWeb3 (H := Fixture.externals) Fixture.cfg
                  (Fixture.wallet_login Fixture.wallet_lower "login-nonce-7" "0xa11ce"))
               Fixture.world = inr r
        /\ status_of r <> Some 200).
Proof.
  destruct (first_wallet_login_creates_account (H := Fixture.externals) Fixture.cfg
              (Fixture.wallet_login Fixture.wallet_lower "login-nonce-7" "0xa11ce")
              Fixture.world Fixture.wallet_lower
              ltac:(vm_compute; reflexivity) ltac:(vm_compute; reflexivity))
    as (Hwallet & Hweb3 & _).
  split.
  - apply (Hwallet
             (JWalletLogin "00000000-0000-4000-8000-000000000001" WEB3_USER
                (Some Fixture.wallet_lower) true
                (mkTokens
                   "jwt(00000000-0000-4000-8000-000000000001,00000000-0000-4000-8000-000000000003)"
                   "jwt(00000000-0000-4000-8000-000000000001,00000000-0000-4000-8000-000000000004)")));
      vm_compute; reflexivity.
  - apply Hweb3. reflexivity.
Defined.

(** On the same request the two wallet logins part ways: [authenticateWallet]
    answers 200 and inserts the account, [authenticateWeb3] answers 500 and
    inserts nothing. *)
Example first_login_on_both_paths :
  let req := Fixture.wallet_login Fixture.wallet_lower "login-nonce-7" "0xa11ce" in
  isEmail (Externals := Fixture.externals) "0x5290...9ee7@web3.user" = false
  /\ length (users (final (H := Fixture.externals)
                      (Auth.authenticateWallet (H := Fixture.externals) Fixture.cfg req)
                      Fixture.world)) = 5%nat
  /\ result (H := Fixture.externals)
            (AuthMiddleware.authenticateWeb3 (H := Fixture.externals) Fixture.cfg req)
            Fixture.world
     = inr (Sent 500 (JMessage "Internal server error"))
  /\ users (final (H := Fixture.externals)
              (AuthMiddleware.authenticateWeb3 (H := Fixture.externals) Fixture.cfg req)
              Fixture.world)
     = users Fixture.world.
Proof. repeat split; vm_compute; reflexivity. Qed.

(** ** The race of two first logins *)

Section Race.
Context `{Externals}.
Variable cfg : Config.

(** The token-issuing tail of [authenticateWallet]: no insert in it. *)
Ltac token_tail :=
  destruct (env_JWT_SECRET cfg); cbn; [|exact I];
  split; [|exact I]; intros ?jti; split; [|exact I]; intros ?jti;
  split; [|exact I]; intros [?|]; (split; [|exact I]); intros [?|]; cbn; exact I.

Lemma authenticateWallet_conflicts_surface (req : Request) :
  conflicts_surface (Auth.authenticateWallet cfg req).
Proof.
  unfold Auth.authenticateWallet, User_create, JwtUtils.generateTokenPair,
    beforeSave, hashPassword. cbv zeta.
  destruct (_ || _); cbn; [exact I|].
  destruct (verifyMessage _ _); cbn; [|exact I].
  destruct (negb (bool_decide _)); cbn; [exact I|].
  split; [|exact I]. intros [user|]; cbn; [token_tail|].
  split; [|exact I]. intros randomBytes. split; [|exact I]. intros uuid.
  destruct (validate _); cbn; [|exact I].
  destruct (changed _ _); cbn.
  - split; [|exact I]. intros salt. split.
    + intros [c|user]; cbn; [exact I|token_tail].
    + intros c. left. eexists. reflexivity.
  - split.
    + intros [c|user]; cbn; [exact I|token_tail].
    + intros c. left. eexists. reflexivity.
Qed.

Ltac sign_tail user :=
  destruct (negb (isActive user)); cbn; [exact I|];
  split; [|exact I]; intros [?|]; cbn; [exact I|];
  split; [|exact I]; intros []; exact I.

Lemma authenticateWeb3_conflicts_surface (req : Request) :
  conflicts_surface (AuthMiddleware.authenticateWeb3 cfg req).
Proof.
  unfold AuthMiddleware.authenticateWeb3, User_create, beforeSave, hashPassword.
  cbv zeta.
  destruct (_ || _); cbn; [exact I|].
  destruct (verifyMessage _ _); cbn; [|split; [intros []|]; exact I].
  destruct (negb (bool_decide _)); cbn; [exact I|].
  split; [|exact I]. intros [user|]; cbn; [sign_tail user|].
  split; [|exact I]. intros randomBytes. split; [|exact I]. intros uuid.
  destruct (validate _); cbn; [|split; [intros []|]; exact I].
  destruct (changed _ _); cbn.
  - split; [|exact I]. intros salt. split.
    + intros [c|user]; cbn; [split; [intros []|]; exact I|sign_tail user].
    + intros c. right. eexists. eexists. reflexivity.
  - split.
    + intros [c|user]; cbn; [split; [intros []|]; exact I|sign_tail user].
    + intros c. right. eexists. eexists. reflexivity.
Qed.

(** *** The unique indexes hold under every interleaving *)

Lemma existsb_false_lookup {A} (P : A -> bool) (l : list A) (i : nat) (x : A) :
  existsb P l = false -> l !! i = Some x -> P x = false.
Proof.
  intros He Hi. destruct (P x) eqn:HP; [|reflexivity].
  assert (existsb P l = true) as Ht; [|congruence].
  apply existsb_exists. exists x. split; [|exact HP].
  apply list_elem_of_In, list_elem_of_lookup. eauto.
Qed.

Lemma insert_ok (u : User) (us us' : list User) :
  directory_ok us -> Table.insert u us = inr us' -> directory_ok us'.
Proof.
  intros [Hid Hw]. unfold Table.insert.
  destruct (Table.id_taken u us) eqn:Hti; [discriminate|].
  destruct (Table.email_taken u us); [discriminate|].
  destruct (Table.wallet_taken u us) eqn:Htw; [discriminate|].
  intros [= <-]. split.
  - intros i j x y Hi Hj Hxy.
    apply lookup_snoc_Some in Hi as [[Hil Hi]|[-> <-]];
      apply lookup_snoc_Some in Hj as [[Hjl Hj]|[-> <-]].
    + eapply Hid; eassumption.
    + pose proof (existsb_false_lookup _ _ _ _ Hti Hi) as Hf.
      apply bool_decide_eq_false in Hf. contradiction.
    + pose proof (existsb_false_lookup _ _ _ _ Hti Hj) as Hf.
      apply bool_decide_eq_false in Hf. symmetry in Hxy. contradiction.
    + reflexivity.
  - intros i j x y a Hi Hj Hx Hy. unfold Table.wallet_taken in Htw.
    apply lookup_snoc_Some in Hi as [[Hil Hi]|[-> <-]];
      apply lookup_snoc_Some in Hj as [[Hjl Hj]|[-> <-]].
    + eapply Hw; eassumption.
    + rewrite Hy in Htw.
      pose proof (existsb_false_lookup _ _ _ _ Htw Hi) as Hf.
      apply bool_decide_eq_false in Hf. contradiction.
    + rewrite Hx in Htw.
      pose proof (existsb_false_lookup _ _ _ _ Htw Hj) as Hf.
      apply bool_decide_eq_false in Hf. contradiction.
    + reflexivity.
Qed.

Lemma update_ok (fields : gset string) (u : User) (us us' : list User) :
  directory_ok us -> Table.update (merge fields) u us = inr us' -> directory_ok us'.
Proof.
  intros [Hid Hw]. unfold Table.update.
  destruct (Table.findByPk (id u) us) as [old|] eqn:Hold;
    [|intros [= <-]; split; assumption].
  pose proof (findByPk_id _ _ _ Hold) as Hoid.
  destruct (Table.email_taken _ _); [discriminate|].
  destruct (Table.wallet_taken _ _) eqn:Htw; [discriminate|].
  intros [= <-].
  set (row := merge fields u old) in *.
  set (g := fun v : User => if bool_decide (id v = id u) then row else v).
  assert (forall v, id (g v) = id v) as Hg.
  { intros v. unfold g. case_bool_decide as Hv; [|reflexivity].
    subst row. cbn. congruence. }
  change (map g us) with (g <$> us).
  split.
  - intros i j x y Hi Hj Hxy. rewrite list_lookup_fmap in Hi, Hj.
    destruct (us !! i) as [x0|] eqn:Hi0; [|discriminate].
    destruct (us !! j) as [y0|] eqn:Hj0; [|discriminate].
    cbn in Hi, Hj. injection Hi as <-. injection Hj as <-.
    rewrite !Hg in Hxy. eapply Hid; eassumption.
  - assert (forall k v a, us !! k = Some v -> id v <> id u ->
              user_walletAddress v = Some a -> user_walletAddress row = Some a ->
              False) as Hfree.
    { intros k v a Hk Hne Hv Hr. unfold Table.wallet_taken in Htw. rewrite Hr in Htw.
      assert (existsb (fun v0 => bool_decide (user_walletAddress v0 = Some a))
                      (Table.others u us) = true) as Ht; [|congruence].
      apply existsb_exists. exists v. split.
      - apply list_elem_of_In. unfold Table.others. apply list_elem_of_filter.
        split; [exact Hne|]. apply list_elem_of_lookup. eauto.
      - apply bool_decide_eq_true_2, Hv. }
    intros i j x y a Hi Hj Hx Hy. rewrite list_lookup_fmap in Hi, Hj.
    destruct (us !! i) as [x0|] eqn:Hi0; [|discriminate].
    destruct (us !! j) as [y0|] eqn:Hj0; [|discriminate].
    cbn in Hi, Hj. injection Hi as <-. injection Hj as <-.
    unfold g in Hx, Hy.
    destruct (decide (id x0 = id u)) as [Hxu|Hxu];
      destruct (decide (id y0 = id u)) as [Hyu|Hyu].
    + eapply Hid; [exact Hi0|exact Hj0|congruence].
    + rewrite (bool_decide_eq_true_2 _ Hxu) in Hx.
      rewrite (bool_decide_eq_false_2 _ Hyu) in Hy.
      exfalso. exact (Hfree j y0 a Hj0 Hyu Hy Hx).
    + rewrite (bool_decide_eq_false_2 _ Hxu) in Hx.
      rewrite (bool_decide_eq_true_2 _ Hyu) in Hy.
      exfalso. exact (Hfree i x0 a Hi0 Hxu Hx Hy).
    + rewrite (bool_decide_eq_false_2 _ Hxu) in Hx.
      rewrite (bool_decide_eq_false_2 _ Hyu) in Hy.
      eapply Hw; eassumption.
Qed.

Lemma handle_ok {X} (op : Op X) (w : World) :
  directory_ok (users w) -> directory_ok (users (handle op w).2).
Proof.
  intros Hok. destruct op; cbn; try exact Hok.
  - destruct (Table.insert u (users w)) as [c|us'] eqn:Hins; [exact Hok|].
    eapply insert_ok; eassumption.
  - destruct (Table.update (merge fields) u (users w)) as [c|us'] eqn:Hup; [exact Hok|].
    eapply update_ok; eassumption.
Qed.

Lemma step_ok {A} (p : Prog A) (w : World) :
  directory_ok (users w) -> directory_ok (users (step p w).2).
Proof.
  intros Hok. destruct p as [a|e|X op k]; cbn; try exact Hok.
  pose proof (handle_ok op w Hok) as Hh.
  destruct (handle op w) as [x w1]. exact Hh.
Qed.

Lemma interleave_ok {A} (schedule : list nat) (ps : list (Prog A)) (w : World) :
  directory_ok (users w) -> directory_ok (users (interleave schedule ps w).2).
Proof.
  revert ps w. induction schedule as [|i rest IH]; intros ps w Hok; cbn; [exact Hok|].
  destruct (ps !! i) as [p|]; [|apply IH, Hok].
  pose proof (step_ok p w Hok) as Hs.
  destruct (step p w) as [p1 w1]. apply IH, Hs.
Qed.

(** Under the index, an address has at most one account. *)
Lemma wallet_unique_accounts (a : string) (us : list User) :
  wallet_unique us -> (length (accounts_of a us) <= 1)%nat.
Proof.
  unfold accounts_of.
  induction us as [|v us IH]; intros Hw; simpl; [lia|].
  assert (wallet_unique us) as Hw'.
  { intros i j x y b Hi Hj Hx Hy.
    assert (S i = S j) as Hij by (eapply Hw; eassumption). lia. }
  case_bool_decide as Hv; [|apply IH, Hw'].
  assert (List.filter (fun v0 => bool_decide (user_walletAddress v0 = Some a)) us = [])
    as ->; [|simpl; lia].
  destruct (List.filter _ us) as [|y l] eqn:Hf; [reflexivity|].
  assert (In y (List.filter (fun v0 => bool_decide (user_walletAddress v0 = Some a)) us))
    as Hin by (rewrite Hf; left; reflexivity).
  apply filter_In in Hin as [Hin Hy]. apply bool_decide_eq_true in Hy.
  apply list_elem_of_In, list_elem_of_lookup in Hin as [j Hj].
  assert (0%nat = S j) as Hbad by (eapply (Hw 0%nat (S j)); eauto). discriminate.
Qed.

End Race.

(** C5 (amended).  When the create of a first wallet login hits a unique
    index of the directory, nothing is fetched again: at every insert the
    handlers can reach, a conflict leaves only the report of a 500
    ([authenticateWallet] forwards it, [authenticateWeb3] logs and sends
    it).  The unique indexes alone keep the accounts apart: under every
    interleaving of requests, a directory that satisfies them still does,
    and then no address has more than one account. *)
Theorem create_conflict_is_not_recovered `{Externals}
    (cfg : Config) (req : Request) (schedule : list nat) (ps : list (Prog Reply))
    (w : World) (a : string) :
  directory_ok (users w) ->
  conflicts_surface (Auth.authenticateWallet cfg req)
  /\ conflicts_surface (AuthMiddleware.authenticateWeb3 cfg req)
  /\ directory_ok (users (interleave schedule ps w).2)
  /\ (length (accounts_of a (users (interleave schedule ps w).2)) <= 1)%nat.
Proof.
  intros Hok.
  pose proof (interleave_ok schedule ps w Hok) as Hafter.
  split; [apply authenticateWallet_conflicts_surface|].
  split; [apply authenticateWeb3_conflicts_surface|].
  split; [exact Hafter|].
  apply wallet_unique_accounts, Hafter.
Qed.

Lemma Fixture_world_ok : directory_ok (users Fixture.world).
Proof.
  split.
  - intros i j u v Hi Hj Huv.
    destruct i as [|[|[|[|i]]]]; destruct j as [|[|[|[|j]]]];
      cbn in Hi, Hj; simplify_eq; reflexivity || discriminate.
  - intros i j u v a Hi Hj Hu Hv.
    destruct i as [|[|[|[|i]]]]; destruct j as [|[|[|[|j]]]];
      cbn in Hi, Hj; simplify_eq; reflexivity || discriminate.
Qed.

Lemma create_conflict_is_not_recovered_witness :
  let login := Auth.authenticateWallet (H := Fixture.externals) Fixture.cfg
                 (Fixture.wallet_login Fixture.wallet_lower "login-nonce-7" "0xa11ce") in
  let after := (interleave (H := Fixture.externals)
                  [0; 1; 0; 0; 0; 0; 0; 0; 0; 0; 1; 1; 1; 1]%nat
                  [login; login] Fixture.world).2 in
  conflicts_surface login
  /\ directory_ok (users after)
  /\ (length (accounts_of Fixture.wallet_lower (users after)) <= 1)%nat.
Proof.
  intros login after.
  destruct (create_conflict_is_not_recovered (H := Fixture.externals) Fixture.cfg
              (Fixture.wallet_login Fixture.wallet_lower "login-nonce-7" "0xa11ce")
              [0; 1; 0; 0; 0; 0; 0; 0; 0; 0; 1; 1; 1; 1]%nat
              [login; login] Fixture.world Fixture.wallet_lower Fixture_world_ok)
    as (Hs & _ & Hok & Hone).
  split; [exact Hs|]. split; [exact Hok|exact Hone].
Defined.

(** C5, as stated, fails: of two first logins from one address that both
    look the account up before either creates it, the second is answered
    with a 500 and fetches nothing again. *)
Lemma concurrent_first_login_gets_500 :
  let login := Auth.authenticateWallet (H := Fixture.externals) Fixture.cfg
                 (Fixture.wallet_login Fixture.wallet_lower "login-nonce-7" "0xa11ce") in
  let '(ps, after) := interleave (H := Fixture.externals)
                        [0; 1; 0; 0; 0; 0; 0; 0; 0; 0; 1; 1; 1; 1]%nat
                        [login; login] Fixture.world in
  (exists j, ps !! 0%nat = Some (Ret (Sent 200 j)))
  /\ ps !! 1%nat = Some (Ret (Failed (api 500 "Validation error")))
  /\ length (accounts_of Fixture.wallet_lower (users after)) = 1%nat.
Proof.
  vm_compute. split; [eexists; reflexivity|]. split; reflexivity.
Qed.

(** * Further properties of the middleware *)

(** ** What [authenticateToken] lets through *)

(** X1.  [authenticateToken] calls [next()] only for a non-empty token that
    is not blacklisted, verifies under [JWT_SECRET] and names an existing,
    active account; [req.user] is then the decoded payload, whatever the
    directory says about role and wallet. *)
Theorem authenticateToken_next_only_when_valid `{Externals}
    (cfg : Config) (req req1 : Request) (w : World) :
  result (Auth.authenticateToken cfg req) w = inr (Next req1) ->
  exists tok d u,
    Auth.bearer (authorization req) = Some tok
    /\ tok <> ""
    /\ Js.truthy (redis w !! ("bl_" +:+ tok)) = false
    /\ jwt_verify (now w) tok (Some (Auth.JWT_SECRET cfg)) = inr d
    /\ Table.findByPk (userId d) (users w) = Some u
    /\ isActive u = true
    /\ req1 = set_user req d.
Proof.
  unfold result. rewrite authenticateToken_run. cbn [fst]. unfold token_reply.
  destruct (Auth.bearer (authorization req)) as [tok|] eqn:Hb; [|discriminate].
  destruct tok as [|c tok]; [discriminate|].
  cbn [Js.truthy negb default].
  destruct (Js.truthy (redis w !! _)) eqn:Hr; [discriminate|].
  destruct (jwt_verify _ _ _) as [f|d] eqn:Hv; [discriminate|].
  destruct (Table.findByPk _ _) as [u|] eqn:Hu; [|discriminate].
  destruct (isActive u) eqn:Ha; cbn [negb]; [|discriminate].
  intros [= <-]. exists (String c tok), d, u.
  repeat split; try assumption. discriminate.
Qed.

Lemma authenticateToken_next_only_when_valid_witness :
  exists tok d u,
    Auth.bearer (authorization (Fixture.with_bearer "alice.access")) = Some tok
    /\ tok <> ""
    /\ Js.truthy (redis Fixture.world !! ("bl_" +:+ tok)) = false
    /\ jwt_verify (Externals := Fixture.externals) (now Fixture.world) tok
                  (Some (Auth.JWT_SECRET Fixture.cfg)) = inr d
    /\ Table.findByPk (userId d) (users Fixture.world) = Some u
    /\ isActive u = true
    /\ set_user (Fixture.with_bearer "alice.access")
                (mkPayload "u-alice" USER None (Some "jti-1"))
       = set_user (Fixture.with_bearer "alice.access") d.
Proof.
  apply (authenticateToken_next_only_when_valid (H := Fixture.externals) Fixture.cfg
           (Fixture.with_bearer "alice.access")
           (set_user (Fixture.with_bearer "alice.access")
                     (mkPayload "u-alice" USER None (Some "jti-1")))
           Fixture.world).
  vm_compute. reflexivity.
Defined.

(** X20.  Whatever the reason [jwt.verify] rejects a token for (malformed,
    bad signature, expired), both token middlewares answer the same 401
    "Invalid token". *)
Theorem jwt_failures_are_indistinguishable `{Externals}
    (cfg : Config) (req : Request) (w : World) (tok : string) (f : JwtFailure) :
  Auth.bearer (authorization req) = Some tok ->
  tok <> "" ->
  (Js.truthy (redis w !! ("bl_" +:+ tok)) = false ->
   jwt_verify (now w) tok (Some (Auth.JWT_SECRET cfg)) = inl f ->
   result (Auth.authenticateToken cfg req) w = inr (Failed (api 401 "Invalid token")))
  /\ (from_option (Js.startsWith "Bearer ") false (authorization req) = true ->
      jwt_verify (now w) tok (env_JWT_SECRET cfg) = inl f ->
      result (AuthMiddleware.authenticate cfg req) w
      = inr (Sent 401 (JMessage "Invalid token"))).
Proof.
  intros Hb Hne. split.
  - intros Hr Hv. unfold result. rewrite authenticateToken_run. cbn [fst].
    unfold token_reply. rewrite Hb, truthy_Some by exact Hne.
    change (default "" (Some tok)) with tok. cbn [negb]. rewrite Hr, Hv. reflexivity.
  - intros Hp Hv. unfold result, AuthMiddleware.authenticate. cbv zeta.
    rewrite Hp, Hb. cbn. rewrite Hv. reflexivity.
Qed.

Lemma jwt_failures_are_indistinguishable_witness :
  result (H := Fixture.externals)
         (Auth.authenticateToken Fixture.cfg (Fixture.with_bearer "forged"))
         Fixture.world
  = inr (Failed (api 401 "Invalid token"))
  /\ result (H := Fixture.externals)
            (AuthMiddleware.authenticate Fixture.cfg (Fixture.with_bearer "forged"))
            Fixture.world
     = inr (Sent 401 (JMessage "Invalid token")).
Proof.
  destruct (jwt_failures_are_indistinguishable (H := Fixture.externals) Fixture.cfg
              (Fixture.with_bearer "forged") Fixture.world "forged" Malformed
              ltac:(reflexivity) ltac:(discriminate)) as [Htoken Hmw].
  split; [apply Htoken|apply Hmw]; vm_compute; reflexivity.
Defined.

(** ** The gates, once the token is validated *)

Section Gates.
Context `{Externals}.
Variable cfg : Config.

Lemma chain_of_next (rest : list Middleware) (req req1 : Request) (w : World) :
  result (Auth.authenticateToken cfg req) w = inr (Next req1) ->
  run (runChain (Async (Auth.authenticateToken cfg) :: rest) req) w
  = let '(r, w2, t) := run (runChain rest req1) w in
    (r, w2, (token_trace cfg w req ++ t)%list).
Proof.
  intros Hok. apply token_reply_of_result in Hok.
  rewrite chain_after_token, Hok. reflexivity.
Qed.

End Gates.

(** X5.  After [authenticateToken] has validated the token, [requireRole
    roles] calls [next()] exactly when the role in the token payload is one
    of [roles], and fails with 403 "Insufficient permissions" otherwise;
    with an empty list it refuses every identity. *)
Theorem requireRole_decides_by_membership `{Externals}
    (cfg : Config) (roles : list UserRole) (req req1 : Request) (w : World)
    (p : TokenPayload) :
  result (Auth.authenticateToken cfg req) w = inr (Next req1) ->
  req_user req1 = Some p ->
  result (runChain (Auth.requireAuth cfg ++ [Auth.requireRole roles]) req) w
  = inr (if bool_decide (role p ∈ roles) then Next req1
         else Failed (api 403 "Insufficient permissions"))
  /\ result (runChain (Auth.requireAuth cfg ++ [Auth.requireRole []]) req) w
     = inr (Failed (api 403 "Insufficient permissions")).
Proof.
  intros Hok Hp. unfold result, Auth.requireAuth. cbn [app].
  rewrite !(chain_of_next cfg _ req req1 w Hok). cbn. unfold Auth.the_user.
  rewrite Hp. cbn. split; [|reflexivity].
  destruct (bool_decide (role p ∈ roles)); reflexivity.
Qed.

Lemma requireRole_decides_by_membership_witness :
  let req := Fixture.with_bearer "root.default" in
  result (H := Fixture.externals)
         (runChain (Auth.requireAuth Fixture.cfg_no_secret ++ [Auth.requireRole [ADMIN]]) req)
         Fixture.world
  = inr (if bool_decide (ADMIN ∈ [ADMIN])
         then Next (set_user req (mkPayload "u-root" ADMIN None (Some "jti-4")))
         else Failed (api 403 "Insufficient permissions"))
  /\ result (H := Fixture.externals)
            (runChain (Auth.requireAuth Fixture.cfg_no_secret ++ [Auth.requireRole []]) req)
            Fixture.world
     = inr (Failed (api 403 "Insufficient permissions")).
Proof.
  intros req.
  apply (requireRole_decides_by_membership (H := Fixture.externals)
           Fixture.cfg_no_secret [ADMIN] req
           (set_user req (mkPayload "u-root" ADMIN None (Some "jti-4")))
           Fixture.world (mkPayload "u-root" ADMIN None (Some "jti-4")));
    vm_compute; reflexivity.
Defined.

(** X6.  After [authenticateToken] has validated the token,
    [requireVerifiedWallet] looks the account up by the wallet address in
    the token payload, not by [userId]: it calls [next()] exactly when some
    account holds that address with [isWalletVerified = true]; it rejects
    with 401 when the payload has no address and with 403 otherwise. *)
Theorem requireVerifiedWallet_decides_by_address `{Externals}
    (cfg : Config) (req req1 : Request) (w : World) (p : TokenPayload) :
  result (Auth.authenticateToken cfg req) w = inr (Next req1) ->
  req_user req1 = Some p ->
  result (runChain (Auth.requireVerifiedWallet cfg) req) w
  = inr (if negb (Js.truthy (walletAddress p))
         then Rejected (api 401 "Wallet authentication required")
         else if from_option isWalletVerified false
                   (Table.findOneByWallet (walletAddress p) (users w))
         then Next req1
         else Rejected (api 403 "Wallet not verified")).
Proof.
  intros Hok Hp. unfold result, Auth.requireVerifiedWallet.
  rewrite (chain_of_next cfg _ req req1 w Hok). cbn. unfold Auth.the_user.
  rewrite Hp. cbn.
  destruct (Js.truthy (walletAddress p)); cbn; [|reflexivity].
  destruct (from_option isWalletVerified false _); reflexivity.
Qed.

Lemma requireVerifiedWallet_decides_by_address_witness :
  let req := Fixture.with_bearer "carol.access" in
  result (H := Fixture.externals)
         (runChain (Auth.requireVerifiedWallet Fixture.cfg) req) Fixture.world_later
  = inr (Rejected (api 403 "Wallet not verified")).
Proof.
  intros req.
  refine (eq_trans
            (requireVerifiedWallet_decides_by_address (H := Fixture.externals)
               Fixture.cfg req
               (set_user req (mkPayload "u-carol" WEB3_USER
                                (Some "0x8617E340B3D01FA5F11F306F4090FD50E238070D")
                                (Some "jti-5")))
               Fixture.world_later
               (mkPayload "u-carol" WEB3_USER
                  (Some "0x8617E340B3D01FA5F11F306F4090FD50E238070D") (Some "jti-5"))
               _ _) _);
    vm_compute; reflexivity.
Defined.

(** X7.  [requireWeb3Auth] and [requireWallet] let the same requests
    through and refuse the others with the same status; they differ only in
    the message of the 401 for a missing wallet address. *)
Theorem requireWeb3Auth_same_as_requireWallet `{Externals}
    (cfg : Config) (req : Request) (w : World) :
  exists r1 r2,
    result (runChain (Auth.requireWeb3Auth cfg) req) w = inr r1
    /\ result (runChain (Auth.requireWallet cfg) req) w = inr r2
    /\ status_of r1 = status_of r2
    /\ (forall req1, r1 = Next req1 <-> r2 = Next req1)
    /\ (r1 = r2
        \/ (r1 = Failed (api 401 "Web3 authentication required")
            /\ r2 = Failed (api 401 "Wallet authentication required"))).
Proof.
  unfold result, Auth.requireWeb3Auth, Auth.requireWallet.
  rewrite !chain_after_token.
  destruct (token_reply cfg w req) as [req1|e|e|s j|s j req1] eqn:Ht;
    try (eexists; eexists; repeat split; eauto; fail).
  cbn. unfold Auth.the_user.
  destruct (req_user req1) as [p|]; cbn;
    [|eexists; eexists; repeat split; eauto].
  destruct (Js.truthy (walletAddress p)); cbn.
  - eexists; eexists; repeat split; eauto.
  - eexists; eexists. split; [reflexivity|]. split; [reflexivity|].
    split; [reflexivity|]. split; [|right; split; reflexivity].
    intros req2. split; discriminate.
Qed.

(** X2.  Token validation and the gates only read: whatever the request,
    the chains of auth.ts and [authenticate] of authMiddleware.ts leave the
    directory, the revocation store and the random sources as they were. *)
Theorem validation_never_writes `{Externals}
    (cfg : Config) (roles : list UserRole) (req : Request) (w : World) :
  final (runChain (Auth.requireAuth cfg ++ [Auth.requireRole roles]) req) w = w
  /\ final (runChain (Auth.requireWeb3Auth cfg) req) w = w
  /\ final (runChain (Auth.requireWallet cfg) req) w = w
  /\ final (runChain (Auth.requireVerifiedWallet cfg) req) w = w
  /\ final (AuthMiddleware.authenticate cfg req) w = w.
Proof.
  unfold final, Auth.requireAuth, Auth.requireWeb3Auth, Auth.requireWallet,
    Auth.requireVerifiedWallet. cbn [app]. rewrite !chain_after_token.
  repeat split.
  - destruct (token_reply cfg w req) as [req1| | | |]; try reflexivity.
    cbn. unfold Auth.the_user. destruct (req_user req1) as [p|]; cbn; [|reflexivity].
    destruct (bool_decide _); reflexivity.
  - destruct (token_reply cfg w req) as [req1| | | |]; try reflexivity.
    cbn. unfold Auth.the_user. destruct (req_user req1) as [p|]; cbn; [|reflexivity].
    destruct (Js.truthy _); reflexivity.
  - destruct (token_reply cfg w req) as [req1| | | |]; try reflexivity.
    cbn. unfold Auth.the_user. destruct (req_user req1) as [p|]; cbn; [|reflexivity].
    destruct (Js.truthy _); reflexivity.
  - destruct (token_reply cfg w req) as [req1| | | |]; try reflexivity.
    cbn. unfold Auth.the_user. destruct (req_user req1) as [p|]; cbn; [|reflexivity].
    destruct (Js.truthy _); cbn; [|reflexivity].
    destruct (from_option isWalletVerified false _); reflexivity.
  - unfold AuthMiddleware.authenticate. cbv zeta.
    destruct (negb _); cbn; [reflexivity|].
    destruct (jwt_verify _ _ _) as [f|d]; cbn; [reflexivity|].
    destruct (Table.findByPk _ _) as [u|]; cbn; [|reflexivity].
    destruct (isActive u); reflexivity.
Qed.

(** ** The Authorization header *)

Section Header.
Context `{Externals}.
Variable cfg : Config.

Lemma split_after_word (a b : string) :
  no_space a = true -> Js.split " " (a +:+ " " +:+ b) = a :: Js.split " " b.
Proof.
  unfold no_space. induction a as [|c a IH]; intros Ha; simpl.
  - reflexivity.
  - simpl in Ha. apply andb_prop in Ha as [Hc Ha].
    destruct (Ascii.eqb c " "); [discriminate|].
    rewrite (IH Ha). reflexivity.
Qed.

Lemma bearer_ignores_scheme (scheme rest : string) :
  no_space scheme = true ->
  Auth.bearer (Some (scheme +:+ " " +:+ rest)) = Auth.bearer (Some ("Bearer " +:+ rest)).
Proof.
  intros Hs. unfold Auth.bearer. cbn [mbind option_bind].
  rewrite split_after_word by exact Hs.
  change ("Bearer " +:+ rest) with ("Bearer" +:+ " " +:+ rest).
  rewrite split_after_word by reflexivity. reflexivity.
Qed.

End Header.

(** X3.  [authenticateToken] does not look at the scheme of the
    Authorization header: it takes the second space-separated word,
    whatever the first word is.  A header [<scheme> <rest>] is handled as
    [Bearer <rest>]: same operations, same failure, same payload let through. *)
Theorem authenticateToken_ignores_scheme `{Externals}
    (cfg : Config) (req1 req2 : Request) (w : World) (scheme rest : string) :
  no_space scheme = true ->
  authorization req1 = Some (scheme +:+ " " +:+ rest) ->
  authorization req2 = Some ("Bearer " +:+ rest) ->
  trace (Auth.authenticateToken cfg req1) w = trace (Auth.authenticateToken cfg req2) w
  /\ (forall e, result (Auth.authenticateToken cfg req1) w = inr (Failed e)
                <-> result (Auth.authenticateToken cfg req2) w = inr (Failed e))
  /\ (forall d, result (Auth.authenticateToken cfg req1) w = inr (Next (set_user req1 d))
                <-> result (Auth.authenticateToken cfg req2) w = inr (Next (set_user req2 d))).
Proof.
  intros Hs H1 H2. unfold trace, result. rewrite !authenticateToken_run. cbn [fst snd].
  unfold token_trace, token_reply. rewrite H1, H2, (bearer_ignores_scheme scheme rest Hs).
  split; [reflexivity|].
  destruct (negb _); [split; [reflexivity|]; intros d; split; discriminate|].
  destruct (Js.truthy (redis w !! _));
    [split; [reflexivity|]; intros d; split; discriminate|].
  destruct (jwt_verify _ _ _) as [f|d0];
    [split; [reflexivity|]; intros d; split; discriminate|].
  destruct (Table.findByPk _ _) as [u|];
    [|split; [reflexivity|]; intros d; split; discriminate].
  destruct (negb (isActive u));
    [split; [reflexivity|]; intros d; split; discriminate|].
  split; [intros e; split; discriminate|].
  intros d. unfold set_user. split; intros [= ->]; reflexivity.
Qed.

Lemma authenticateToken_ignores_scheme_witness :
  let basic := mkRequest (Some "Basic alice.access") Fixture.no_body None in
  trace (H := Fixture.externals) (Auth.authenticateToken Fixture.cfg basic) Fixture.world
  = trace (H := Fixture.externals)
          (Auth.authenticateToken Fixture.cfg (Fixture.with_bearer "alice.access"))
          Fixture.world.
Proof.
  intros basic.
  apply (authenticateToken_ignores_scheme (H := Fixture.externals) Fixture.cfg basic
           (Fixture.with_bearer "alice.access") Fixture.world "Basic" "alice.access");
    reflexivity.
Defined.

(** X4.  [authenticate] of authMiddleware.ts does check the scheme: a
    request whose Authorization header is missing or does not start with
    "Bearer " is answered 401 "No token provided" before any operation. *)
Theorem authenticate_requires_bearer_prefix `{Externals}
    (cfg : Config) (req : Request) (w : World) :
  from_option (Js.startsWith "Bearer ") false (authorization req) = false ->
  run (AuthMiddleware.authenticate cfg req) w
  = (inr (Sent 401 (JMessage "No token provided")), w, []).
Proof.
  intros Hp. unfold AuthMiddleware.authenticate. cbv zeta. rewrite Hp. reflexivity.
Qed.

Lemma authenticate_requires_bearer_prefix_witness :
  run (H := Fixture.externals)
      (AuthMiddleware.authenticate Fixture.cfg
         (mkRequest (Some "Basic alice.access") Fixture.no_body None))
      Fixture.world
  = (inr (Sent 401 (JMessage "No token provided")), Fixture.world, []).
Proof.
  apply (authenticate_requires_bearer_prefix (H := Fixture.externals)). reflexivity.
Defined.

(** ** [authenticate] of authMiddleware.ts *)

(** X9.  [authenticate] calls [next()] only for a header starting with
    "Bearer " whose token verifies under the configured secret and names an
    existing, active account; [req.user] is then built from the account as
    the directory holds it (its current role and wallet address), not from
    the token. *)
Theorem authenticate_next_only_when_valid `{Externals}
    (cfg : Config) (req req1 : Request) (w : World) :
  result (AuthMiddleware.authenticate cfg req) w = inr (Next req1) ->
  exists d u,
    from_option (Js.startsWith "Bearer ") false (authorization req) = true
    /\ jwt_verify (now w) (default "" (Auth.bearer (authorization req)))
                  (env_JWT_SECRET cfg) = inr d
    /\ Table.findByPk (userId d) (users w) = Some u
    /\ isActive u = true
    /\ req1 = set_user req (mkPayload (id u) (user_role u) (user_walletAddress u) None).
Proof.
  unfold result, AuthMiddleware.authenticate. cbv zeta.
  destruct (from_option (Js.startsWith "Bearer ") false (authorization req)) eqn:Hp;
    cbn [negb]; [|cbn; discriminate].
  cbn.
  destruct (jwt_verify _ _ _) as [f|d] eqn:Hv; cbn; [discriminate|].
  destruct (Table.findByPk _ _) as [u|] eqn:Hu; cbn; [|discriminate].
  destruct (isActive u) eqn:Ha; cbn; [|discriminate].
  intros [= <-]. exists d, u. repeat split; assumption || reflexivity.
Qed.

Lemma authenticate_next_only_when_valid_witness :
  exists d u,
    jwt_verify (Externals := Fixture.externals) (now Fixture.world_later) "alice.access"
               (env_JWT_SECRET Fixture.cfg) = inr d
    /\ Table.findByPk (userId d) (users Fixture.world_later) = Some u
    /\ role d = USER /\ user_role u = ADMIN.
Proof.
  destruct (authenticate_next_only_when_valid (H := Fixture.externals) Fixture.cfg
              (Fixture.with_bearer "alice.access")
              (set_user (Fixture.with_bearer "alice.access")
                        (mkPayload "u-alice" ADMIN None None))
              Fixture.world_later ltac:(vm_compute; reflexivity))
    as (d & u & _ & Hv & Hu & _ & _).
  exists d, u. split; [exact Hv|]. split; [exact Hu|].
  vm_compute in Hv. injection Hv as <-. vm_compute in Hu. injection Hu as <-.
  split; reflexivity.
Defined.

(** X10.  [authenticate] never consults the revocation store: in two
    worlds with the same directory and clock it gives the same answer,
    whatever their Redis holds; a token blacklisted under [bl_<token>] is
    still accepted by it. *)
Theorem authenticate_ignores_revocation `{Externals}
    (cfg : Config) (req : Request) (w w' : World) :
  users w' = users w -> now w' = now w ->
  result (AuthMiddleware.authenticate cfg req) w'
  = result (AuthMiddleware.authenticate cfg req) w.
Proof.
  destruct w as [us r n dr], w' as [us' r' n' dr']. cbn [users now].
  intros -> ->. unfold result, AuthMiddleware.authenticate. cbv zeta.
  destruct (negb _); cbn; [reflexivity|].
  destruct (jwt_verify _ _ _) as [f|d]; cbn; [reflexivity|].
  destruct (find _ us) as [u|]; cbn; [|reflexivity].
  destruct (isActive u); reflexivity.
Qed.

Lemma authenticate_ignores_revocation_witness :
  let revoked := mkWorld (users Fixture.world) {[ "bl_alice.access" := "1" ]} 1000 0 in
  result (H := Fixture.externals)
         (AuthMiddleware.authenticate Fixture.cfg (Fixture.with_bearer "alice.access"))
         revoked
  = result (H := Fixture.externals)
           (AuthMiddleware.authenticate Fixture.cfg (Fixture.with_bearer "alice.access"))
           Fixture.world.
Proof.
  intros revoked.
  apply (authenticate_ignores_revocation (H := Fixture.externals)); reflexivity.
Defined.

(** The same blacklisted token: refused by [authenticateToken], accepted
    by [authenticate]. *)
Example blacklisted_token_on_both_paths :
  let revoked := mkWorld (users Fixture.world) {[ "bl_alice.access" := "1" ]} 1000 0 in
  result (H := Fixture.externals)
         (Auth.authenticateToken Fixture.cfg (Fixture.with_bearer "alice.access")) revoked
  = inr (Failed (api 401 "Token has been revoked"))
  /\ result (H := Fixture.externals)
            (AuthMiddleware.authenticate Fixture.cfg (Fixture.with_bearer "alice.access"))
            revoked
     = inr (Next (set_user (Fixture.with_bearer "alice.access")
                           (mkPayload "u-alice" USER None None))).
Proof. split; vm_compute; reflexivity. Qed.

(** ** Malformed requests *)

(** X8.  A request that lacks a required body field (absent or empty) is
    refused with status 400 before any operation is performed:
    [authenticateWallet] needs [walletAddress], [signature] and [message],
    [authenticateWeb3] needs [signature], [message] and [address],
    [refreshToken] needs [refreshToken]. *)
Theorem missing_field_is_400 `{Externals}
    (cfg : Config) (req : Request) (w : World) :
  (Js.truthy (b_walletAddress (body req)) && Js.truthy (b_signature (body req))
   && Js.truthy (b_message (body req)) = false ->
   run (Auth.authenticateWallet cfg req) w
   = (inr (Failed (api 400 "Missing wallet authentication data")), w, []))
  /\ (Js.truthy (b_signature (body req)) && Js.truthy (b_message (body req))
      && Js.truthy (b_address (body req)) = false ->
      run (AuthMiddleware.authenticateWeb3 cfg req) w
      = (inr (Sent 400 (JMessage "Missing required fields")), w, []))
  /\ (Js.truthy (b_refreshToken (body req)) = false ->
      run (Auth.refreshToken cfg req) w
      = (inr (Failed (api 400 "Refresh token is required")), w, [])).
Proof.
  repeat split.
  - intros Hm. unfold Auth.authenticateWallet. cbv zeta.
    destruct (Js.truthy (b_walletAddress _)), (Js.truthy (b_signature _)),
      (Js.truthy (b_message _)); try discriminate; reflexivity.
  - intros Hm. unfold AuthMiddleware.authenticateWeb3. cbv zeta.
    destruct (Js.truthy (b_signature _)), (Js.truthy (b_message _)),
      (Js.truthy (b_address _)); try discriminate; reflexivity.
  - intros Hm. unfold Auth.refreshToken. cbv zeta. rewrite Hm. reflexivity.
Qed.

Lemma missing_field_is_400_witness :
  let req := mkRequest None (mkBody (Some Fixture.wallet) (Some Fixture.wallet)
                                    (Some "") (Some "login-nonce-7") None) None in
  run (H := Fixture.externals) (Auth.authenticateWallet (H := Fixture.externals) Fixture.cfg req)
      Fixture.world
  = (inr (Failed (api 400 "Missing wallet authentication data")), Fixture.world, [])
  /\ run (H := Fixture.externals)
         (AuthMiddleware.authenticateWeb3 (H := Fixture.externals) Fixture.cfg req)
         Fixture.world
     = (inr (Sent 400 (JMessage "Missing required fields")), Fixture.world, [])
  /\ run (H := Fixture.externals) (Auth.refreshToken Fixture.cfg req) Fixture.world
     = (inr (Failed (api 400 "Refresh token is required")), Fixture.world, []).
Proof.
  intros req.
  destruct (missing_field_is_400 (H := Fixture.externals) Fixture.cfg req Fixture.world)
    as (Hw & Hweb3 & Hr).
  split; [apply Hw; reflexivity|]. split; [apply Hweb3; reflexivity|apply Hr; reflexivity].
Defined.

(** X19.  When the three fields are present but [ethers.verifyMessage]
    throws (a signature it cannot parse), the wallet logins answer 500, not
    400 or 401, and touch neither the directory nor the token library:
    [authenticateWallet] forwards a 500, [authenticateWeb3] logs the error
    and sends 500 "Internal server error". *)
Theorem unparsable_signature_is_500 `{Externals}
    (cfg : Config) (req : Request) (w : World) (sig msg : string) :
  b_signature (body req) = Some sig ->
  b_message (body req) = Some msg ->
  sig <> "" -> msg <> "" ->
  verifyMessage msg sig = None ->
  (Js.truthy (b_walletAddress (body req)) = true ->
   exists m, run (Auth.authenticateWallet cfg req) w = (inr (Failed (api 500 m)), w, []))
  /\ (Js.truthy (b_address (body req)) = true ->
      exists e,
        run (AuthMiddleware.authenticateWeb3 cfg req) w
        = (inr (Sent 500 (JMessage "Internal server error")), w,
           [Ev (ConsoleError "Web3 auth middleware error:" e) tt])).
Proof.
  intros Hs Hm Hsne Hmne Hrec. split; intros Ha.
  - unfold Auth.authenticateWallet. cbv zeta.
    rewrite Hs, Hm, Ha, !truthy_Some by assumption.
    change (default "" (Some ?x)) with x. cbn. rewrite Hrec. cbn.
    eexists. reflexivity.
  - unfold AuthMiddleware.authenticateWeb3. cbv zeta.
    rewrite Hs, Hm, Ha, !truthy_Some by assumption.
    change (default "" (Some ?x)) with x. cbn. rewrite Hrec. cbn.
    eexists. reflexivity.
Qed.

Lemma unparsable_signature_is_500_witness :
  let req := Fixture.wallet_login Fixture.wallet "login-nonce-7" "0xbad" in
  (exists m, run (H := Fixture.externals)
               (Auth.authenticateWallet (H := Fixture.externals) Fixture.cfg req)
               Fixture.world
             = (inr (Failed (api 500 m)), Fixture.world, []))
  /\ (exists e,
        run (H := Fixture.externals)
            (AuthMiddleware.authenticateWeb3 (H := Fixture.externals) Fixture.cfg req)
            Fixture.world
        = (inr (Sent 500 (JMessage "Internal server error")), Fixture.world,
           [Ev (ConsoleError "Web3 auth middleware error:" e) tt])).
Proof.
  intros req.
  destruct (unparsable_signature_is_500 (H := Fixture.externals) Fixture.cfg req
              Fixture.world "0xbad" "login-nonce-7"
              ltac:(reflexivity) ltac:(reflexivity)
              ltac:(discriminate) ltac:(discriminate) ltac:(reflexivity))
    as [Hw Hweb3].
  split; [apply Hw|apply Hweb3]; reflexivity.
Defined.

(** ** Wallet login for an address that already has an account *)

(** X11.  When an account already holds the address and the signature
    matches, [authenticateWeb3] creates nothing.  A deactivated account is
    answered 403 "Account is deactivated" and no token is signed; an active
    one gets a 7-day token whose claims are the account's id, role and
    wallet address as the directory holds them, the same identity is put
    on [req.user], and [next()] is called after the reply is sent. *)
Theorem authenticateWeb3_existing_account `{Externals}
    (cfg : Config) (req : Request) (w : World)
    (address sig msg recovered : string) (u : User) :
  b_address (body req) = Some address ->
  b_signature (body req) = Some sig ->
  b_message (body req) = Some msg ->
  address <> "" -> sig <> "" -> msg <> "" ->
  verifyMessage msg sig = Some recovered ->
  Js.toLowerCase recovered = Js.toLowerCase address ->
  Table.findOneByWallet (Some address) (users w) = Some u ->
  let claims := mkPayload (id u) (user_role u) (user_walletAddress u) None in
  (isActive u = false ->
   run (AuthMiddleware.authenticateWeb3 cfg req) w
   = (inr (Sent 403 (JMessage "Account is deactivated")), w,
      [Ev (FindOneByWallet (Some address)) (Some u)]))
  /\ (isActive u = true ->
      forall token,
        jwt_sign (now w) claims (env_JWT_SECRET cfg) 604800 = Some token ->
        run (AuthMiddleware.authenticateWeb3 cfg req) w
        = (inr (SentNext 200
                  (JWeb3Login token (id u) (user_role u) (user_walletAddress u))
                  (set_user req claims)),
           w,
           [Ev (FindOneByWallet (Some address)) (Some u);
            Ev (JwtSign claims (env_JWT_SECRET cfg) 604800) (Some token)])).
Proof.
  intros Ha Hs Hm Hane Hsne Hmne Hrec Heq Hfound claims.
  unfold AuthMiddleware.authenticateWeb3. cbv zeta.
  rewrite Ha, Hs, Hm, !truthy_Some by assumption.
  change (default "" (Some ?x)) with x. cbn [negb orb]. rewrite Hrec.
  rewrite bool_decide_eq_true_2 by exact Heq. cbn [negb].
  rewrite run_catch, run_bind. cbn [run call handle]. rewrite Hfound.
  rewrite run_bind. cbn [run mret Prog_ret].
  split.
  - intros Hact. rewrite Hact. reflexivity.
  - intros Hact token Hsign. rewrite Hact. cbn [negb].
    unfold AuthMiddleware.payload_of. fold claims. cbn. rewrite Hsign. reflexivity.
Qed.

Lemma authenticateWeb3_existing_account_witness :
  let dave := mkUser "u-dave" "dave@example.com" "$2b$10$salt09$x" WEB3_USER
                     (Some Fixture.wallet_lower) false true in
  let w := mkWorld [Fixture.alice; dave] ∅ 1000 0 in
  let req := Fixture.wallet_login Fixture.wallet_lower "login-nonce-7" "0xa11ce" in
  run (H := Fixture.externals)
      (AuthMiddleware.authenticateWeb3 (H := Fixture.externals) Fixture.cfg req) w
  = (inr (Sent 403 (JMessage "Account is deactivated")), w,
     [Ev (FindOneByWallet (Some Fixture.wallet_lower)) (Some dave)]).
Proof.
  intros dave w req.
  destruct (authenticateWeb3_existing_account (H := Fixture.externals) Fixture.cfg req w
              Fixture.wallet_lower "0xa11ce" "login-nonce-7" Fixture.wallet dave
              ltac:(reflexivity) ltac:(reflexivity) ltac:(reflexivity)
              ltac:(discriminate) ltac:(discriminate) ltac:(discriminate)
              ltac:(reflexivity) ltac:(reflexivity) ltac:(reflexivity))
    as [Hinactive _].
  apply Hinactive. reflexivity.
Defined.

Section ExistingAccount.
Context `{Externals}.
Variable cfg : Config.

Lemma generateTokenPair_inl (p : TokenPayload) (w w' : World) (e : Exn) t :
  run (JwtUtils.generateTokenPair cfg p) w = (inl e, w', t) -> plain_error e.
Proof.
  intros Hrun.
  pose proof (ends_result _ _ _ w (generateTokenPair_ends cfg p)) as Hend.
  unfold result in Hend. rewrite Hrun in Hend. exact Hend.
Qed.

End ExistingAccount.

(** X12.  When an account already holds the address and the signature
    matches, [authenticateWallet] creates nothing and never looks at
    [isActive]: whether the account is active or deactivated, the reply is
    never 401 or 403, and a 200 reply carries that account's id, role,
    wallet address and verification flag with the issued pair. *)
Theorem authenticateWallet_existing_account `{Externals}
    (cfg : Config) (req : Request) (w : World)
    (address sig msg recovered : string) (u : User) :
  b_walletAddress (body req) = Some address ->
  b_signature (body req) = Some sig ->
  b_message (body req) = Some msg ->
  address <> "" -> sig <> "" -> msg <> "" ->
  verifyMessage msg sig = Some recovered ->
  Js.toLowerCase recovered = Js.toLowerCase address ->
  Table.findOneByWallet (Some address) (users w) = Some u ->
  users (final (Auth.authenticateWallet cfg req) w) = users w
  /\ exists r,
       result (Auth.authenticateWallet cfg req) w = inr r
       /\ status_of r <> Some 401
       /\ status_of r <> Some 403
       /\ (forall j, r = Sent 200 j ->
           exists tokens,
             j = JWalletLogin (id u) (user_role u) (user_walletAddress u)
                              (isWalletVerified u) tokens).
Proof.
  intros Ha Hs Hm Hane Hsne Hmne Hrec Heq Hfound.
  unfold final, result, Auth.authenticateWallet. cbv zeta.
  rewrite Ha, Hs, Hm, !truthy_Some by assumption.
  change (default "" (Some ?x)) with x. cbn [negb orb].
  rewrite run_catch, run_bind, run_throw_if, Hrec.
  rewrite run_bind, run_throw_if, bool_decide_eq_true_2 by exact Heq. cbn [negb].
  rewrite run_bind. cbn [run call handle]. rewrite Hfound.
  rewrite run_bind. cbn [run mret Prog_ret]. rewrite run_bind.
  pose proof (generateTokenPair_users cfg
                (mkPayload (id u) (user_role u) (user_walletAddress u) None) w) as Hk.
  unfold final in Hk.
  destruct (run (JwtUtils.generateTokenPair cfg _) w) as [[[e|tokens] w2] t2] eqn:Hg.
  - apply generateTokenPair_inl in Hg as [m ->]. cbn in Hk |- *.
    split; [exact Hk|]. eexists. split; [reflexivity|].
    repeat split; try discriminate.
  - cbn in Hk |- *. split; [exact Hk|]. eexists. split; [reflexivity|].
    repeat split; try discriminate. intros j [= <-]. eexists. reflexivity.
Qed.

Lemma authenticateWallet_existing_account_witness :
  let dave := mkUser "u-dave" "dave@example.com" "$2b$10$salt09$x" WEB3_USER
                     (Some Fixture.wallet_lower) false true in
  let w := mkWorld [Fixture.alice; dave] ∅ 1000 0 in
  let req := Fixture.wallet_login Fixture.wallet_lower "login-nonce-7" "0xa11ce" in
  users (final (H := Fixture.externals)
           (Auth.authenticateWallet (H := Fixture.externals) Fixture.cfg req) w)
  = users w
  /\ exists r,
       result (H := Fixture.externals)
              (Auth.authenticateWallet (H := Fixture.externals) Fixture.cfg req) w = inr r
       /\ status_of r <> Some 401
       /\ status_of r <> Some 403
       /\ (forall j, r = Sent 200 j ->
           exists tokens,
             j = JWalletLogin (id dave) (user_role dave) (user_walletAddress dave)
                              (isWalletVerified dave) tokens).
Proof.
  intros dave w req.
  apply (authenticateWallet_existing_account (H := Fixture.externals) Fixture.cfg req w
           Fixture.wallet_lower "0xa11ce" "login-nonce-7" Fixture.wallet dave);
    solve [reflexivity | discriminate].
Defined.

(** A deactivated account is given a pair by [authenticateWallet]. *)
Example deactivated_account_gets_tokens :
  let dave := mkUser "u-dave" "dave@example.com" "$2b$10$salt09$x" WEB3_USER
                     (Some Fixture.wallet_lower) false true in
  let w := mkWorld [Fixture.alice; dave] ∅ 1000 0 in
  result (H := Fixture.externals)
         (Auth.authenticateWallet (H := Fixture.externals) Fixture.cfg
            (Fixture.wallet_login Fixture.wallet_lower "login-nonce-7" "0xa11ce")) w
  = inr (Sent 200
           (JWalletLogin "u-dave" WEB3_USER (Some Fixture.wallet_lower) true
              (mkTokens "jwt(u-dave,00000000-0000-4000-8000-000000000000)"
                        "jwt(u-dave,00000000-0000-4000-8000-000000000001)"))).
Proof. vm_compute. reflexivity. Qed.

(** ** [User.create] and the hook *)

(** X13.  A successful [User.create] appends exactly one row after the
    existing ones: its id is the generated UUID, its password is the bcrypt
    hash of the given password under a freshly generated salt (10 rounds),
    omitted attributes take the defaults of [User.init] (role [WEB3_USER],
    [isActive = true], [isWalletVerified = false]); the email passed
    [isEmail], a wallet address matched [0x] and 40 hex digits, and no
    earlier row had the same email or wallet address. *)
Theorem User_create_success `{Externals}
    (a : CreateUserAttributes) (w w' : World) (u : User) (t : list Event) :
  run (User_create a) w = (inr u, w', t) ->
  u = mkUser (random_uuid (draws w)) (a_email a)
             (bcrypt_hash (a_password a) (random_salt (S (draws w)) 10))
             (default WEB3_USER (a_role a)) (a_walletAddress a)
             (default true (a_isActive a)) (default false (a_isWalletVerified a))
  /\ users w' = (users w ++ [u])%list
  /\ isEmail (a_email a) = true
  /\ (forall addr, a_walletAddress a = Some addr -> is_wallet_address addr = true)
  /\ Table.email_taken u (users w) = false
  /\ Table.wallet_taken u (users w) = false.
Proof.
  unfold User_create, beforeSave, hashPassword. cbn.
  destruct (validate _) eqn:Hval; cbn; [|discriminate].
  rewrite changed_build. cbn.
  destruct (Table.insert _ _) as [c|us'] eqn:Hins; cbn; [discriminate|].
  intros [= <- <- <-]. cbn. rewrite dataValues_set_password in *.
  unfold build in *. cbn in *.
  unfold validate in Hval. cbn in Hval. apply andb_prop in Hval as [Hmail Hwal].
  unfold Table.insert in Hins.
  destruct (Table.id_taken _ _); [discriminate|].
  destruct (Table.email_taken _ _) eqn:Hte; [discriminate|].
  destruct (Table.wallet_taken _ _) eqn:Htw; [discriminate|].
  injection Hins as <-.
  repeat split; try reflexivity; try assumption.
  intros addr Haddr. rewrite Haddr in Hwal. exact Hwal.
Qed.

Lemma User_create_success_witness :
  let a := mkAttrs "erin@example.com" "hunter2" None None None None in
  exists u w',
    users w' = (users Fixture.world ++ [u])%list
    /\ password u = "$2b$10$salt01$hunter2"
    /\ user_role u = WEB3_USER /\ isActive u = true /\ isWalletVerified u = false.
Proof.
  intros a.
  destruct (run (H := Fixture.externals) (User_create (H := Fixture.externals) a)
                Fixture.world) as [[[e|u] w'] t] eqn:Hrun;
    [vm_compute in Hrun; discriminate|].
  destruct (User_create_success (H := Fixture.externals) a Fixture.world w' u t Hrun)
    as (Hu & Hus & _).
  exists u, w'. split; [exact Hus|]. rewrite Hu. repeat split; reflexivity.
Defined.

(** X14.  A failed [User.create] leaves the directory as it was.  It fails
    either in validation, before anything is inserted, or on a unique index
    at the insert; both are thrown as plain errors. *)
Theorem User_create_failure `{Externals}
    (a : CreateUserAttributes) (w w' : World) (e : Exn) (t : list Event) :
  run (User_create a) w = (inl e, w', t) ->
  users w' = users w
  /\ ((e = EError (validation_message (dataValues (build (random_uuid (draws w)) a)))
       /\ validate (dataValues (build (random_uuid (draws w)) a)) = false
       /\ t = [Ev UuidV4 (random_uuid (draws w))])
      \/ (exists c u,
            e = EError (conflict_message c)
            /\ Table.insert u (users w) = inl c
            /\ email u = a_email a
            /\ user_walletAddress u = a_walletAddress a)).
Proof.
  unfold User_create, beforeSave, hashPassword. cbn.
  destruct (validate _) eqn:Hval; cbn.
  - rewrite changed_build. cbn.
    destruct (Table.insert _ _) as [c|us'] eqn:Hins; cbn; [|discriminate].
    intros [= <- <- <-]. split; [reflexivity|]. right.
    eexists. eexists. split; [reflexivity|]. split; [exact Hins|].
    rewrite dataValues_set_password. unfold build. cbn. split; reflexivity.
  - intros [= <- <- <-]. split; [reflexivity|]. left. repeat split.
Qed.

Lemma User_create_failure_witness :
  let a := mkAttrs "alice@example.com" "hunter2" None None None None in
  exists e w' t,
    run (H := Fixture.externals) (User_create (H := Fixture.externals) a) Fixture.world
    = (inl e, w', t)
    /\ users w' = users Fixture.world
    /\ e = EError "Validation error".
Proof.
  intros a.
  destruct (run (H := Fixture.externals) (User_create (H := Fixture.externals) a)
                Fixture.world) as [[[e|u] w'] t] eqn:Hrun;
    [|vm_compute in Hrun; discriminate].
  destruct (User_create_failure (H := Fixture.externals) a Fixture.world w' e t Hrun)
    as [Hus _].
  exists e, w', t. split; [reflexivity|]. split; [exact Hus|].
  vm_compute in Hrun. congruence.
Defined.

(** X15.  [hashPassword] is not idempotent while the password is marked
    changed: the mark stays after hashing, so running it a second time
    before the save (an explicit call followed by the [beforeSave] hook)
    stores the hash of the hash. *)
Theorem hashPassword_twice_hashes_the_hash `{Externals}
    (inst : UserInstance) (w : World) :
  changed inst "password" = true ->
  exists inst2,
    result (hashPassword inst ≫= beforeSave) w = inr inst2
    /\ password (dataValues inst2)
       = bcrypt_hash (bcrypt_hash (password (dataValues inst))
                                  (random_salt (draws w) 10))
                     (random_salt (S (draws w)) 10)
    /\ changed inst2 "password" = true.
Proof.
  intros Hc.
  assert (forall i v, changed i "password" = true ->
                      changed (set_password i v) "password" = true) as Hkeep.
  { intros i v Hi. unfold set_password. case_bool_decide; [exact Hi|].
    unfold changed. cbn. apply bool_decide_eq_true_2. set_solver. }
  unfold result, beforeSave, hashPassword. rewrite Hc. cbn.
  rewrite (Hkeep _ _ Hc). cbn.
  eexists. split; [reflexivity|]. split.
  - rewrite !dataValues_set_password. reflexivity.
  - apply Hkeep, Hkeep, Hc.
Qed.

Lemma hashPassword_twice_hashes_the_hash_witness :
  let inst := set_password (loaded Fixture.alice) "looking-glass" in
  exists inst2,
    result (H := Fixture.externals)
           (hashPassword (H := Fixture.externals) inst ≫= beforeSave (H := Fixture.externals))
           Fixture.world = inr inst2
    /\ password (dataValues inst2) = "$2b$10$salt01$$2b$10$salt00$looking-glass".
Proof.
  intros inst.
  destruct (hashPassword_twice_hashes_the_hash (H := Fixture.externals) inst Fixture.world
              ltac:(vm_compute; reflexivity)) as (inst2 & Hr & Hp & _).
  exists inst2. split; [exact Hr|]. rewrite Hp. vm_compute. reflexivity.
Defined.

(** ** Logging in again *)

Section LoginAgain.
Context `{Externals}.
Variable cfg : Config.

Lemma find_None_filter {A} (P : A -> bool) (l : list A) :
  find P l = None -> List.filter P l = [].
Proof.
  induction l as [|x l IH]; simpl; [reflexivity|].
  destruct (P x); [discriminate|exact IH].
Qed.

Lemma find_snoc {A} (P : A -> bool) (l : list A) (x : A) :
  find P l = None -> P x = true -> find P (l ++ [x])%list = Some x.
Proof.
  induction l as [|y l IH]; simpl; intros Hl Hx.
  - rewrite Hx. reflexivity.
  - destruct (P y); [discriminate|]. apply IH; assumption.
Qed.

Lemma find_app_Some {A} (P : A -> bool) (l l' : list A) (x : A) :
  find P l = Some x -> find P (l ++ l')%list = Some x.
Proof.
  induction l as [|y l IH]; simpl; [discriminate|].
  destruct (P y); [trivial|exact IH].
Qed.

(** With an account on file for the address, no path of
    [authenticateWallet] inserts anything. *)
Lemma authenticateWallet_known_address (req : Request) (w : World)
    (address : string) (u : User) :
  b_walletAddress (body req) = Some address ->
  Table.findOneByWallet (Some address) (users w) = Some u ->
  users (final (Auth.authenticateWallet cfg req) w) = users w.
Proof.
  intros Ha Hfound. unfold final, Auth.authenticateWallet. cbv zeta.
  rewrite Ha. change (default "" (Some address)) with address.
  rewrite run_catch, run_bind, run_throw_if.
  destruct (_ || _); [reflexivity|].
  destruct (verifyMessage _ _) as [recovered|]; [|reflexivity].
  rewrite run_bind, run_throw_if.
  destruct (negb _); [reflexivity|].
  rewrite run_bind. cbn [run call handle]. rewrite Hfound.
  rewrite run_bind. cbn [run mret Prog_ret]. rewrite run_bind.
  pose proof (generateTokenPair_users cfg
                (mkPayload (id u) (user_role u) (user_walletAddress u) None) w) as Hk.
  unfold final in Hk.
  destruct (run (JwtUtils.generateTokenPair cfg _) w) as [[[e|tokens] w2] t2];
    [destruct e|]; exact Hk.
Qed.

End LoginAgain.

(** X16.  After a successful first login of an address through
    [authenticateWallet], the account it created is the one a lookup by
    that address returns and the only account with that address; the same
    request sent again finds it and creates nothing. *)
Theorem first_login_then_login_again `{Externals}
    (cfg : Config) (req : Request) (w : World) (address : string) (j : Json) :
  b_walletAddress (body req) = Some address ->
  Table.findOneByWallet (Some address) (users w) = None ->
  result (Auth.authenticateWallet cfg req) w = inr (Sent 200 j) ->
  let w1 := final (Auth.authenticateWallet cfg req) w in
  exists u,
    users w1 = (users w ++ [u])%list
    /\ Table.findOneByWallet (Some address) (users w1) = Some u
    /\ accounts_of address (users w1) = [u]
    /\ users (final (Auth.authenticateWallet cfg req) w1) = users w1.
Proof.
  intros Ha Hnone Hres w1.
  destruct (authenticateWallet_creates cfg req w address j Ha Hnone Hres)
    as (u & salt & Hus & _ & _ & _ & Hwal & _).
  fold w1 in Hus.
  assert (bool_decide (user_walletAddress u = Some address) = true) as Hu
    by (apply bool_decide_eq_true_2, Hwal).
  assert (Table.findOneByWallet (Some address) (users w1) = Some u) as Hfound.
  { rewrite Hus. cbn in Hnone |- *. apply find_snoc; assumption. }
  exists u. split; [exact Hus|]. split; [exact Hfound|]. split.
  - rewrite Hus. unfold accounts_of. rewrite List.filter_app.
    cbn in Hnone. rewrite (find_None_filter _ _ Hnone). simpl. rewrite Hu. reflexivity.
  - eapply authenticateWallet_known_address; eassumption.
Qed.

Lemma first_login_then_login_again_witness :
  let req := Fixture.wallet_login Fixture.wallet_lower "login-nonce-7" "0xa11ce" in
  let w1 := final (H := Fixture.externals)
              (Auth.authenticateWallet (H := Fixture.externals) Fixture.cfg req)
              Fixture.world in
  exists u,
    users w1 = (users Fixture.world ++ [u])%list
    /\ Table.findOneByWallet (Some Fixture.wallet_lower) (users w1) = Some u
    /\ accounts_of Fixture.wallet_lower (users w1) = [u]
    /\ users (final (H := Fixture.externals)
                (Auth.authenticateWallet (H := Fixture.externals) Fixture.cfg req) w1)
       = users w1.
Proof.
  intros req.
  apply (first_login_then_login_again (H := Fixture.externals) Fixture.cfg req
           Fixture.world Fixture.wallet_lower
           (JWalletLogin "00000000-0000-4000-8000-000000000001" WEB3_USER
              (Some Fixture.wallet_lower) true
              (mkTokens
                 "jwt(00000000-0000-4000-8000-000000000001,00000000-0000-4000-8000-000000000003)"
                 "jwt(00000000-0000-4000-8000-000000000001,00000000-0000-4000-8000-000000000004)")));
    vm_compute; reflexivity.
Defined.

(** X17.  The signature check compares addresses without regard to letter
    case, but the directory is searched for the address exactly as sent.
    So when the account of a wallet is on file under one spelling and the
    same wallet logs in under another spelling, a successful login creates
    a second account: afterwards two accounts hold wallet addresses that
    are equal up to case. *)
Theorem other_spelling_gets_second_account `{Externals}
    (cfg : Config) (req : Request) (w : World) (address other : string)
    (v : User) (j : Json) :
  b_walletAddress (body req) = Some address ->
  Js.toLowerCase address = Js.toLowerCase other ->
  Table.findOneByWallet (Some other) (users w) = Some v ->
  Table.findOneByWallet (Some address) (users w) = None ->
  result (Auth.authenticateWallet cfg req) w = inr (Sent 200 j) ->
  let after := users (final (Auth.authenticateWallet cfg req) w) in
  exists u,
    after = (users w ++ [u])%list
    /\ u <> v
    /\ Table.findOneByWallet (Some other) after = Some v
    /\ Table.findOneByWallet (Some address) after = Some u
    /\ (Js.toLowerCase <$> user_walletAddress u) = (Js.toLowerCase <$> user_walletAddress v).
Proof.
  intros Ha Hcase Hv Hnone Hres after.
  destruct (authenticateWallet_creates cfg req w address j Ha Hnone Hres)
    as (u & salt & Hus & _ & _ & _ & Hwal & _).
  fold after in Hus.
  assert (user_walletAddress v = Some other) as Hvw.
  { cbn in Hv. apply find_some in Hv as [_ Hv]. apply bool_decide_eq_true in Hv. exact Hv. }
  exists u. split; [exact Hus|]. split; [|split; [|split]].
  - intros ->. rewrite Hwal in Hvw. injection Hvw as ->. congruence.
  - rewrite Hus. cbn in Hv |- *. apply find_app_Some, Hv.
  - rewrite Hus. cbn in Hnone |- *. apply find_snoc; [exact Hnone|].
    apply bool_decide_eq_true_2, Hwal.
  - rewrite Hwal, Hvw. cbn. f_equal. exact Hcase.
Qed.

Lemma other_spelling_gets_second_account_witness :
  let frank := mkUser "u-frank" "frank@example.com" "$2b$10$salt08$x" WEB3_USER
                      (Some Fixture.wallet) true true in
  let w := mkWorld [Fixture.alice; frank] ∅ 1000 0 in
  let req := Fixture.wallet_login Fixture.wallet_lower "login-nonce-7" "0xa11ce" in
  let after := users (final (H := Fixture.externals)
                        (Auth.authenticateWallet (H := Fixture.externals) Fixture.cfg req)
                        w) in
  exists u,
    after = (users w ++ [u])%list
    /\ u <> frank
    /\ Table.findOneByWallet (Some Fixture.wallet) after = Some frank
    /\ Table.findOneByWallet (Some Fixture.wallet_lower) after = Some u
    /\ (Js.toLowerCase <$> user_walletAddress u)
       = (Js.toLowerCase <$> user_walletAddress frank).
Proof.
  intros frank w req.
  apply (other_spelling_gets_second_account (H := Fixture.externals) Fixture.cfg req w
           Fixture.wallet_lower Fixture.wallet frank
           (JWalletLogin "00000000-0000-4000-8000-000000000001" WEB3_USER
              (Some Fixture.wallet_lower) true
              (mkTokens
                 "jwt(00000000-0000-4000-8000-000000000001,00000000-0000-4000-8000-000000000003)"
                 "jwt(00000000-0000-4000-8000-000000000001,00000000-0000-4000-8000-000000000004)")));
    vm_compute; reflexivity.
Defined.

(** ** The wallet-address format *)

Section AddressFormat.
Context `{Externals}.

Lemma lower_ascii_hex (c : ascii) :
  Js.is_hex c = true -> Js.is_hex (Js.lower_ascii c) = true.
Proof.
  destruct c as [[] [] [] [] [] [] [] []]; vm_compute; trivial.
Qed.

Lemma toLowerCase_hex (s : string) :
  Js.all_chars Js.is_hex s = true -> Js.all_chars Js.is_hex (Js.toLowerCase s) = true.
Proof.
  induction s as [|c s IH]; simpl; [trivial|].
  intros Hs. apply andb_prop in Hs as [Hc Hs].
  rewrite (lower_ascii_hex c Hc), (IH Hs). reflexivity.
Qed.

Lemma toLowerCase_length (s : string) :
  String.length (Js.toLowerCase s) = String.length s.
Proof. induction s as [|c s IH]; simpl; [reflexivity|]. f_equal. exact IH. Qed.

End AddressFormat.

(** X18.  The validator of [walletAddress] accepts only strings of 42
    characters, and accepts the lowercase spelling of every address it
    accepts: an address that passes validation still passes after
    [toLowerCase]. *)
Theorem wallet_address_format_lowercase (s : string) :
  is_wallet_address s = true ->
  String.length s = 42%nat
  /\ is_wallet_address (Js.toLowerCase s) = true.
Proof.
  unfold is_wallet_address.
  destruct s as [|[[] [] [] [] [] [] [] []] s]; simpl; try discriminate.
  destruct s as [|[[] [] [] [] [] [] [] []] rest]; simpl; try discriminate.
  intros Hr. apply andb_prop in Hr as [Hlen Hhex].
  apply Nat.eqb_eq in Hlen. split.
  - simpl. rewrite Hlen. reflexivity.
  - simpl. rewrite toLowerCase_length, Hlen, (toLowerCase_hex rest Hhex). reflexivity.
Qed.

Lemma wallet_address_format_lowercase_witness :
  String.length Fixture.wallet = 42%nat
  /\ is_wallet_address (Js.toLowerCase Fixture.wallet) = true.
Proof.
  apply (wallet_address_format_lowercase Fixture.wallet). reflexivity.
Defined.

(** ** A first login through [authenticateWeb3] *)

(** X21.  [authenticateWeb3] cannot register a wallet.  For an address
    without an account and a matching signature it synthesizes the email
    from the first six and the last four characters of the address joined
    by three dots; [isEmail] refuses that email (validator.js accepts no
    empty label in the local part), so [User.create] fails in validation
    before any insert is attempted, the error is logged, and the request
    is answered 500 "Internal server error" with the directory unchanged. *)
Theorem authenticateWeb3_cannot_register `{Externals}
    (cfg : Config) (req : Request) (w : World)
    (address sig msg recovered : string) :
  b_address (body req) = Some address ->
  b_signature (body req) = Some sig ->
  b_message (body req) = Some msg ->
  address <> "" -> sig <> "" -> msg <> "" ->
  verifyMessage msg sig = Some recovered ->
  Js.toLowerCase recovered = Js.toLowerCase address ->
  Table.findOneByWallet (Some address) (users w) = None ->
  isEmail (Js.slice_to 6 address +:+ "..." +:+ Js.slice_last 4 address
           +:+ "@web3.user") = false ->
  exists e,
    run (AuthMiddleware.authenticateWeb3 cfg req) w
    = (inr (Sent 500 (JMessage "Internal server error")),
       mkWorld (users w) (redis w) (now w) (S (S (draws w))),
       [ Ev (FindOneByWallet (Some address)) None;
         Ev (RandomHex 32) (random_hex (draws w) 32);
         Ev UuidV4 (random_uuid (S (draws w)));
         Ev (ConsoleError "Web3 auth middleware error:" e) tt ]).
Proof.
  intros Ha Hs Hm Hane Hsne Hmne Hrec Heq Hnone Hmail.
  unfold AuthMiddleware.authenticateWeb3. cbv zeta.
  rewrite Ha, Hs, Hm, !truthy_Some by assumption.
  change (default "" (Some ?x)) with x. cbn [negb orb]. rewrite Hrec.
  rewrite bool_decide_eq_true_2 by exact Heq. cbn [negb].
  rewrite run_catch, run_bind. cbn [run call handle]. rewrite Hnone.
  rewrite run_bind, run_bind. cbn [run call handle].
  unfold User_create. rewrite run_bind. cbn [run call handle]. rewrite run_bind.
  assert (validate
            (dataValues
               (build (random_uuid (draws (tick w)))
                  (mkAttrs (Js.slice_to 6 address +:+ "..." +:+ Js.slice_last 4 address
                            +:+ "@web3.user")
                           (random_hex (draws w) 32) (Some WEB3_USER) (Some address)
                           (Some true) None))) = false) as Hval.
  { unfold validate, build. cbn [dataValues email a_email]. rewrite Hmail. reflexivity. }
  rewrite Hval. cbn. eexists. reflexivity.
Qed.

Lemma authenticateWeb3_cannot_register_witness :
  let req := Fixture.wallet_login Fixture.wallet2 "login-nonce-8" "0xb0b" in
  exists e,
    run (H := Fixture.externals)
        (AuthMiddleware.authenticateWeb3 (H := Fixture.externals) Fixture.cfg req)
        Fixture.world
    = (inr (Sent 500 (JMessage "Internal server error")),
       mkWorld (users Fixture.world) (redis Fixture.world) (now Fixture.world) 2,
       [ Ev (FindOneByWallet (Some Fixture.wallet2)) None;
         Ev (RandomHex 32) (random_hex (Externals := Fixture.externals) 0 32);
         Ev UuidV4 (random_uuid (Externals := Fixture.externals) 1);
         Ev (ConsoleError "Web3 auth middleware error:" e) tt ]).
Proof.
  intros req.
  apply (authenticateWeb3_cannot_register (H := Fixture.externals) Fixture.cfg req
           Fixture.world Fixture.wallet2 "0xb0b" "login-nonce-8" Fixture.wallet2);
    solve [reflexivity | discriminate | vm_compute; reflexivity].
Defined.
